(** * LlmCompressor: the .safetensors <-> .kang command-line driver

    A shallow embedding of [src/LlmCompressor/main.cpp]: the container
    writer ([handle_compression]), the container reader
    ([handle_decompression]) and the argument handling of [main], together
    with the properties of the container format that the design document
    states about them.

    Conventions of the embedding.
    - [char] buffers ([std::vector<char>], [std::string]) are [list byte].
    - [uint64_t] and [size_t] values are [Z]; the host is LP64 and
      little-endian, so [size_t] is 64 bits wide, a cast between the two is
      the identity on values in range, and the object representation that
      [write]/[read]/[memcpy] move is the 8-byte little-endian one.
    - An [std::ifstream] is a buffer with a get position and its state
      bits; the file system is a finite map from paths to contents.
    - Every handler threads a [machine]: the file system and a log of the
      observable steps (buffer allocations, engine calls, output file
      creation, messages on [std::cerr]).
    - A buffer can be allocated up to the [memory] of the machine, which
      is at most the [max_size()] of a vector; a larger request throws
      ([std::bad_alloc], [std::length_error]), and since nothing in the
      program catches it the program is terminated.
    - Device errors while writing are not modelled: a write to an opened
      stream succeeds. *)

From Stdlib Require Import ZArith List String Lia Bool.
From Stdlib.Strings Require Import Byte Ascii.
From coqutil Require Import Byte Word.LittleEndianList.
From stdpp Require Import gmap strings list fin_maps.

Local Open Scope Z_scope.

(** ** Bytes and fixed-width integers *)

#[global] Instance byte_eqdec : EqDecision byte.
Proof.
  intros x y. destruct (Byte.eqb x y) eqn:E.
  - left. by apply Byte.byte_dec_bl.
  - right. intros ->. by rewrite Byte.byte_dec_lb in E.
Defined.

(** [v.size()] of a vector or string. *)
Definition vsize {A} (v : list A) : Z := Z.of_nat (length v).

(** Arithmetic on [uint64_t] wraps modulo 2^64. *)
Definition u64 (z : Z) : Z := z mod 2 ^ 64.

(** The 8 bytes of a [uint64_t] object, and the value of 8 such bytes. *)
Definition u64_bytes (v : Z) : list byte := le_split 8 v.
Definition u64_of_bytes (bs : list byte) : Z := le_combine bs.

(** [const std::string KANG_SIGNATURE = "KANGCOMP";] *)
Definition KANG_SIGNATURE : list byte := list_byte_of_string "KANGCOMP".

(** ** Input streams *)

Record ifstream := mk_ifstream {
  ibuf : list byte;
  gpos : Z;
  eofbit : bool;
  failbit : bool
}.

Definition good (s : ifstream) : bool := negb (eofbit s) && negb (failbit s).

Definition ifs_open (content : list byte) : ifstream :=
  mk_ifstream content 0 false false.

(** [in.read(p, n)]: extracts [n] characters; when the end of the stream
    comes first, what is left is extracted and [eofbit] and [failbit] are
    set.  On a stream that is not good nothing is extracted. *)
Definition ifs_read (s : ifstream) (n : Z) : list byte * ifstream :=
  if good s then
    if n <=? vsize (ibuf s) - gpos s then
      (take (Z.to_nat n) (drop (Z.to_nat (gpos s)) (ibuf s)),
       mk_ifstream (ibuf s) (gpos s + n) false false)
    else
      (drop (Z.to_nat (gpos s)) (ibuf s),
       mk_ifstream (ibuf s) (vsize (ibuf s)) true true)
  else ([], mk_ifstream (ibuf s) (gpos s) (eofbit s) true).

(** [in.tellg()]: -1 on a failed stream. *)
Definition tellg (s : ifstream) : Z := if failbit s then -1 else gpos s.

(** [in.seekg(p, std::ios::beg)]: clears [eofbit], then moves unless the
    stream has failed. *)
Definition seekg (s : ifstream) (p : Z) : ifstream :=
  if failbit s then mk_ifstream (ibuf s) (gpos s) false true
  else if p <? 0 then mk_ifstream (ibuf s) (gpos s) false true
  else mk_ifstream (ibuf s) p false false.

(** [in.seekg(0, std::ios::end)] *)
Definition seekg_end (s : ifstream) : ifstream :=
  if failbit s then mk_ifstream (ibuf s) (gpos s) false true
  else mk_ifstream (ibuf s) (vsize (ibuf s)) false false.

(** The lambda [read_u64] of [handle_decompression]. *)
Definition read_u64 (in_file : ifstream) : bool * Z * ifstream :=
  let '(bs, in_file) := ifs_read in_file 8 in
  (good in_file, u64_of_bytes bs, in_file).

(** ** The compression engine *)

(** The fields of [CompressionResult] that [main.cpp] reads and writes;
    [chunk_info] holds the pairs (original size, compressed size). *)
Record CompressionResult := mk_result {
  compressed_header : list byte;
  chunk_info : list (Z * Z);
  compressed_tensors : list byte
}.

(** Modelled from the spec: [compressor.cuh], which declares
    [CompressionResult], [compress_safetensor] and [decompress_kang], is
    not among the sources.  The design document gives the call boundary
    [compress(metadata_bytes, tensor_payload_bytes, level) ->
    CompressionResult | Error] and [decompress(compressed_header,
    compressed_payload, chunk_table) -> (metadata_bytes,
    tensor_payload_bytes) | Error]; the C++ functions return [bool] and
    fill their result arguments, which is [option] here. *)
Class Engine := {
  compress_safetensor : list byte → list byte → Z → option CompressionResult;
  decompress_kang :
    list byte → list byte → list (Z * Z) → option (list byte * list byte)
}.

(** ** The file system and the machine *)

Inductive file_type := NotFound | Regular | Directory | Other.

#[global] Instance file_type_eqdec : EqDecision file_type.
Proof. solve_decision. Defined.

(** [files] are the contents an [std::ifstream] can open; [can_create] are
    the paths an [std::ofstream] can open for writing; [status] is
    [std::filesystem::status] ([None]: it throws [filesystem_error]);
    [entries] lists the entries that the iteration over a directory
    visits, as pairs of an entry path and whether it is a regular file
    ([None]: the construction of the [directory_iterator] throws);
    [iteration_fails] tells whether, after these entries, the iteration
    throws [filesystem_error] (from the increment of the iterator, or from
    [is_regular_file()] on the entry that comes next) instead of reaching
    the end of the directory; [can_mkdir] are the paths
    [create_directories] succeeds on (otherwise it throws); [heap] is the
    size in bytes of the largest block that the allocator can return. *)
Record world := mk_world {
  files : gmap string (list byte);
  can_create : string → bool;
  status : string → option file_type;
  entries : string → option (list (string * bool));
  iteration_fails : string → bool;
  can_mkdir : string → bool;
  heap : Z
}.

(** [max_size()] of a [std::vector<char>] where [size_t] is 64 bits wide. *)
Definition max_size : Z := 2 ^ 63 - 1.

(** The size in bytes of the largest buffer that can be allocated. *)
Definition memory (w : world) : Z := Z.min (heap w) max_size.

Definition set_file (w : world) (path : string) (content : list byte) : world :=
  mk_world (<[path := content]> (files w)) (can_create w) (status w)
           (entries w) (iteration_fails w) (can_mkdir w) (heap w).

(** What ends a function early: the messages the program writes to
    [std::cerr], and two ends that are no messages, [Terminated], where an
    allocation has thrown and [std::terminate] ends the program, and
    [OutOfBounds], where the behaviour of the program is undefined. *)
Inductive error :=
  | CannotOpenFile                (* Error: Cannot open file ... *)
  | FileTooSmall                  (* Error: Invalid safetensors file (too small). *)
  | HeaderSizeMismatch            (* Error: Invalid safetensors file (header size mismatch). *)
  | CompressionFailed             (* Compression failed. *)
  | CannotCreateOutputFile        (* Error: Cannot create output file ... *)
  | CannotOpenInputFile           (* Error: Cannot open input file ... *)
  | InvalidSignature              (* Error: Not a valid .kang file (invalid signature). *)
  | ErrorReadingHeaderSize        (* Error reading header size. *)
  | ErrorReadingCompressedHeader  (* Error reading compressed header. *)
  | ErrorReadingNumChunks         (* Error reading num chunks. *)
  | ErrorReadingChunkInfo         (* Error reading chunk info. *)
  | InvalidFileOffsets            (* Error: Invalid file offsets. *)
  | ErrorReadingTensorPayload     (* Error reading tensor payload. *)
  | DecompressionFailed           (* Decompression failed. *)
  | CannotCreateOutput            (* Error: Cannot create output file. *)
  | InvalidCompressionLevel       (* Error: Invalid compression level. *)
  | InvalidInputPath              (* Error: Input path is not a valid file or directory *)
  | FilesystemError               (* Filesystem error: ... *)
  | Terminated                    (* an allocation threw; nothing catches it *)
  | OutOfBounds.                  (* the iterator range built at lines 65-66
                                     leaves the buffer *)

#[global] Instance error_eqdec : EqDecision error.
Proof. solve_decision. Defined.

Inductive event :=
  | EvAlloc (n : Z)            (* a buffer of n bytes is requested *)
  | EvCompress (level : Z)     (* compress_safetensor is called *)
  | EvDecompress               (* decompress_kang is called *)
  | EvCreate (path : string)   (* an output file is created or truncated *)
  | EvStderr (e : error)       (* a message on std::cerr *)
  | EvUsage.                   (* print_usage() *)

#[global] Instance event_eqdec : EqDecision event.
Proof. solve_decision. Defined.

Record machine := mk_machine {
  fs : world;
  trace : list event
}.

Definition boot (w : world) : machine := mk_machine w [].

(** A computation either runs to its end ([inr]) or leaves the function
    early ([inl]); the machine is threaded in both cases. *)
Definition M (A : Type) : Type := machine → (error + A) * machine.

Definition ret {A} (a : A) : M A := λ m, (inr a, m).

Definition bind {A B} (c : M A) (k : A → M B) : M B :=
  λ m, match c m with
       | (inl e, m') => (inl e, m')
       | (inr a, m') => k a m'
       end.

Definition emit (ev : event) : M unit :=
  λ m, (inr tt, mk_machine (fs m) (trace m ++ [ev])).

(** [std::cerr << ...; return;] *)
Definition throw {A} (e : error) : M A :=
  λ m, (inl e, mk_machine (fs m) (trace m ++ [EvStderr e])).

(** Undefined behaviour: nothing is known of the program from here on. *)
Definition undefined {A} : M A := λ m, (inl OutOfBounds, m).

(** The allocation of a buffer of [n] bytes: [std::vector<char> v(n)],
    [v.resize(n)], [v.reserve(k)] and the constructors that copy a
    range. *)
Definition alloc (n : Z) : M unit :=
  λ m, let m' := mk_machine (fs m) (trace m ++ [EvAlloc n]) in
       if n <=? memory (fs m) then (inr tt, m') else (inl Terminated, m').

Definition get_world : M world := λ m, (inr (fs m), m).

Definition put_world (w : world) : M unit :=
  λ m, (inr tt, mk_machine w (trace m)).

Notation "'let*' x := c 'in' k" := (bind c (λ x, k))
  (at level 10, x name, c at level 100, k at level 200, only parsing).

(** ** Output streams *)

(** An [std::ofstream] buffers what is written and the file receives it
    when the stream is closed; opening creates the file, or empties an
    existing one. *)
Record ofstream := mk_ofstream {
  opath : string;
  obuf : list byte
}.

Definition ofs_open (path : string) : M (option ofstream) :=
  let* w := get_world in
  if can_create w path then
    let* _ := put_world (set_file w path []) in
    let* _ := emit (EvCreate path) in
    ret (Some (mk_ofstream path []))
  else ret None.

Definition ofs_write (o : ofstream) (bs : list byte) : ofstream :=
  mk_ofstream (opath o) (obuf o ++ bs).

Definition ofs_close (o : ofstream) : M unit :=
  let* w := get_world in
  put_world (set_file w (opath o) (obuf o)).

(** ** [read_all] *)

Definition read_all (path : string) : M (bool * list byte) :=
  let* w := get_world in
  match files w !! path with
  | None => ret (false, [])
  | Some content =>
      let in_ := ifs_open content in
      let in_ := seekg_end in_ in
      let sz := tellg in_ in
      if sz <? 0 then ret (false, [])
      else
        let* _ := alloc sz in
        let in_ := seekg in_ 0 in
        let '(buffer, in_) := ifs_read in_ sz in
        ret (good in_, buffer)
  end.

(** ** [handle_compression] *)

(** The body of the loop over [comp_result.chunk_info]. *)
Definition write_chunk_info (out_file : ofstream) (info : Z * Z) : ofstream :=
  let orig := u64 info.1 in
  let comp := u64 info.2 in
  let out_file := ofs_write out_file (u64_bytes orig) in
  ofs_write out_file (u64_bytes comp).

Definition handle_compression {E : Engine}
    (input_path output_path : string) (compression_level : Z) : M unit :=
  let* r := read_all input_path in
  let '(ok, file_buffer) := r in
  if negb ok then throw CannotOpenFile else
  if vsize file_buffer <? 8 then throw FileTooSmall else
  let header_len := u64_of_bytes (take 8 file_buffer) in
  if vsize file_buffer <? u64 (8 + header_len) then throw HeaderSizeMismatch else
  (* [data() + 8 + header_len] is pointer arithmetic and does not wrap *)
  if vsize file_buffer <? 8 + header_len then undefined else
  let* _ := alloc header_len in
  let json_header := take (Z.to_nat header_len) (drop 8 file_buffer) in
  let* _ := alloc (vsize file_buffer - (8 + header_len)) in
  let tensor_data := drop (Z.to_nat (8 + header_len)) file_buffer in
  let* _ := emit (EvCompress compression_level) in
  match compress_safetensor json_header tensor_data compression_level with
  | None => throw CompressionFailed
  | Some comp_result =>
      let* o := ofs_open output_path in
      match o with
      | None => throw CannotCreateOutputFile
      | Some out_file =>
          let out_file := ofs_write out_file KANG_SIGNATURE in
          let compressed_header_size :=
            u64 (vsize (compressed_header comp_result)) in
          let out_file := ofs_write out_file (u64_bytes compressed_header_size) in
          let out_file := ofs_write out_file (compressed_header comp_result) in
          let num_chunks := u64 (vsize (chunk_info comp_result)) in
          let out_file := ofs_write out_file (u64_bytes num_chunks) in
          let out_file :=
            fold_left write_chunk_info (chunk_info comp_result) out_file in
          let out_file :=
            if bool_decide (compressed_tensors comp_result = [])
            then out_file
            else ofs_write out_file (compressed_tensors comp_result) in
          ofs_close out_file
      end
  end.

(** ** [handle_decompression] *)

(** The loop [for (uint64_t i = 0; i < num_chunks_u64; ++i)]; [n] is the
    number of iterations left. *)
Fixpoint read_chunk_info (n : nat) (in_file : ifstream)
    (chunk_info : list (Z * Z)) : option (list (Z * Z)) * ifstream :=
  match n with
  | O => (Some chunk_info, in_file)
  | S n' =>
      let '(ok, orig, in_file) := read_u64 in_file in
      if negb ok then (None, in_file) else
      let '(ok, comp, in_file) := read_u64 in_file in
      if negb ok then (None, in_file) else
      read_chunk_info n' in_file (chunk_info ++ [(orig, comp)])
  end.

Definition handle_decompression {E : Engine}
    (input_path output_path : string) : M unit :=
  let* w := get_world in
  match files w !! input_path with
  | None => throw CannotOpenInputFile
  | Some content =>
      let in_file := ifs_open content in
      let* _ := alloc (vsize KANG_SIGNATURE) in
      let '(signature_buf, in_file) := ifs_read in_file (vsize KANG_SIGNATURE) in
      if negb (good in_file) || negb (bool_decide (signature_buf = KANG_SIGNATURE))
      then throw InvalidSignature else
      let '(ok, compressed_header_size, in_file) := read_u64 in_file in
      if negb ok then throw ErrorReadingHeaderSize else
      let* _ := alloc compressed_header_size in
      let '(compressed_header, in_file) := ifs_read in_file compressed_header_size in
      if negb (good in_file) then throw ErrorReadingCompressedHeader else
      let '(ok, num_chunks_u64, in_file) := read_u64 in_file in
      if negb ok then throw ErrorReadingNumChunks else
      (* reserve(): room for num_chunks_u64 pairs of two size_t *)
      let* _ := alloc (16 * num_chunks_u64) in
      let '(chunks, in_file) :=
        read_chunk_info (Z.to_nat num_chunks_u64) in_file [] in
      match chunks with
      | None => throw ErrorReadingChunkInfo
      | Some chunk_info =>
          let cur := tellg in_file in
          let in_file := seekg_end in_file in
          let end_ := tellg in_file in
          if (cur <? 0) || (end_ <? cur) then throw InvalidFileOffsets else
          (* a std::streamoff that is not negative converts to size_t
             unchanged *)
          let remain := end_ - cur in
          let* _ := alloc remain in
          let in_file := seekg in_file cur in
          let '(compressed_tensors, in_file) := ifs_read in_file remain in
          if negb (good in_file) then throw ErrorReadingTensorPayload else
          let* _ := emit EvDecompress in
          match decompress_kang compressed_header compressed_tensors chunk_info with
          | None => throw DecompressionFailed
          | Some (json_header, tensor_data) =>
              let* o := ofs_open output_path in
              match o with
              | None => throw CannotCreateOutput
              | Some out_file =>
                  let header_len := u64 (vsize json_header) in
                  let out_file := ofs_write out_file (u64_bytes header_len) in
                  let out_file := ofs_write out_file json_header in
                  let out_file :=
                    if bool_decide (tensor_data = []) then out_file
                    else ofs_write out_file tensor_data in
                  ofs_close out_file
              end
          end
      end
  end.

(** ** [main] *)

(** [std::stoi]: leading white space, an optional sign, then decimal
    digits up to the first character that is not one.  [None] stands for
    the exception it throws: [std::invalid_argument] when there is no
    digit, [std::out_of_range] when the value does not fit an [int]. *)
Definition isspace (c : ascii) : bool :=
  let n := Z.of_nat (nat_of_ascii c) in
  (n =? 32) || ((9 <=? n) && (n <=? 13)).

Definition digit_of (c : ascii) : option Z :=
  let n := Z.of_nat (nat_of_ascii c) in
  if (48 <=? n) && (n <=? 57) then Some (n - 48) else None.

Fixpoint skip_spaces (s : string) : string :=
  match s with
  | String c r => if isspace c then skip_spaces r else s
  | EmptyString => s
  end.

Fixpoint digits (s : string) (acc : option Z) : option Z :=
  match s with
  | String c r =>
      match digit_of c with
      | Some d => digits r (Some (10 * default 0 acc + d))
      | None => acc
      end
  | EmptyString => acc
  end.

Definition stoi (s : string) : option Z :=
  let s := skip_spaces s in
  let '(neg, s) :=
    match s with
    | String "-" r => (true, r)
    | String "+" r => (false, r)
    | _ => (false, s)
    end in
  match digits s None with
  | None => None
  | Some v =>
      let v := if neg : bool then - v else v in
      if (- 2 ^ 31 <=? v) && (v <=? 2 ^ 31 - 1) then Some v else None
  end.

(** The member functions of [std::filesystem::path] that the batch loops
    use; they belong to the C++ library and are taken as an interface. *)
Class StdPath := {
  path_extension : string → string;
  path_filename : string → string;
  path_replace_extension : string → string → string;
  path_append : string → string → string
}.

(** A call of a [void] handler: its early [return] ends the handler, not
    the caller, and the caller learns nothing from it.  A handler that is
    terminated or leaves defined behaviour does not return. *)
Definition call (c : M unit) : M unit :=
  λ m, match c m with
       | (inl Terminated, m') => (inl Terminated, m')
       | (inl OutOfBounds, m') => (inl OutOfBounds, m')
       | (_, m') => (inr tt, m')
       end.

(** The two [for (const auto& entry : fs::directory_iterator(input_path))]
    loops: [ext] selects the entries, [new_ext] names the outputs.  [es]
    are the entries that the iteration visits, with the answer of
    [is_regular_file()] on each; an exception that ends the iteration
    after them leaves the loop, and [main] catches it. *)
Fixpoint batch {P : StdPath} (handler : string → string → M unit)
    (ext new_ext output_path : string) (es : list (string * bool))
    (count : Z) : M Z :=
  match es with
  | [] => ret count
  | (entry_path, is_regular) :: es' =>
      if is_regular && bool_decide (path_extension entry_path = ext) then
        let out_file :=
          path_append output_path
            (path_replace_extension (path_filename entry_path) new_ext) in
        let* _ := call (handler entry_path out_file) in
        batch handler ext new_ext output_path es' (count + 1)
      else batch handler ext new_ext output_path es' count
  end.

Definition print_usage : M unit := emit EvUsage.

(** [args] is [argv + 1 .. argv + argc]; the result is the exit status
    ([inr]), unless a handler did not return ([inl]). *)
Definition main {E : Engine} {P : StdPath} (args : list string) : M Z :=
  let argc := vsize args + 1 in
  if argc <? 3 then let* _ := print_usage in ret 1 else
  let command := args !!! 0%nat in
  let parsed : M (option (Z * nat)) :=
    if bool_decide (command = "compress") && (3 <? vsize args) then
      if bool_decide (args !!! 1%nat = "-l")
         || bool_decide (args !!! 1%nat = "--level") then
        if vsize args <? 5 then let* _ := print_usage in ret None
        else
          match stoi (args !!! 2%nat) with
          | None =>
              let* _ := emit (EvStderr InvalidCompressionLevel) in
              let* _ := print_usage in
              ret None
          | Some compression_level => ret (Some (compression_level, 3%nat))
          end
      else ret (Some (10, 1%nat))
    else ret (Some (10, 1%nat)) in
  let* p := parsed in
  match p with
  | None => ret 1
  | Some (compression_level, path_arg_index) =>
      if vsize args <? Z.of_nat path_arg_index + 2
      then let* _ := print_usage in ret 1 else
      let input_path := args !!! path_arg_index in
      let output_path := args !!! (path_arg_index + 1)%nat in
      let* w := get_world in
      match status w input_path with
      | None => let* _ := emit (EvStderr FilesystemError) in ret 1
      | Some Directory =>
          match status w output_path with
          | None => let* _ := emit (EvStderr FilesystemError) in ret 1
          | Some t =>
              if bool_decide (t = NotFound) && negb (can_mkdir w output_path)
              then let* _ := emit (EvStderr FilesystemError) in ret 1
              else if bool_decide (command = "compress") then
                match entries w input_path with
                | None => let* _ := emit (EvStderr FilesystemError) in ret 1
                | Some es =>
                    let* count :=
                      batch (λ i o, handle_compression i o compression_level)
                        ".safetensors" ".kang" output_path es 0 in
                    (* a filesystem_error that ends the iteration is caught
                       at line 272 *)
                    if iteration_fails w input_path
                    then let* _ := emit (EvStderr FilesystemError) in ret 1
                    else ret 0
                end
              else if bool_decide (command = "decompress") then
                match entries w input_path with
                | None => let* _ := emit (EvStderr FilesystemError) in ret 1
                | Some es =>
                    let* count :=
                      batch handle_decompression
                        ".kang" ".safetensors" output_path es 0 in
                    if iteration_fails w input_path
                    then let* _ := emit (EvStderr FilesystemError) in ret 1
                    else ret 0
                end
              else let* _ := print_usage in ret 1
          end
      | Some Regular =>
          if bool_decide (command = "compress") then
            let* _ := call (handle_compression input_path output_path
                              compression_level) in
            ret 0
          else if bool_decide (command = "decompress") then
            let* _ := call (handle_decompression input_path output_path) in
            ret 0
          else let* _ := print_usage in ret 1
      | Some _ =>
          let* _ := emit (EvStderr InvalidInputPath) in ret 1
      end
  end.

(** ** The container layout of the design document *)

(** The chunk table as [K] pairs of unsigned 64-bit integers. *)
Definition encode_table (tbl : list (Z * Z)) : list byte :=
  flat_map (λ info, u64_bytes info.1 ++ u64_bytes info.2) tbl.

(** The layout in the words of the design document (section 6): the
    signature, the 64-bit length H of the compressed header, the H header
    bytes, the 64-bit chunk count K, the K table entries, and the
    compressed payload as the remainder. *)
Definition kang_layout (hdr : list byte) (tbl : list (Z * Z))
    (payload : list byte) : list byte :=
  KANG_SIGNATURE ++ u64_bytes (vsize hdr) ++ hdr ++
  u64_bytes (vsize tbl) ++ encode_table tbl ++ payload.

(** The outer framing of a safetensors file: the 64-bit length of the
    metadata, the metadata, the tensor bytes. *)
Definition safetensors_layout (metadata tensors : list byte) : list byte :=
  u64_bytes (vsize metadata) ++ metadata ++ tensors.

(** Sizes that a [size_t] can hold. *)
Definition fits_u64 (z : Z) : Prop := 0 ≤ z < 2 ^ 64.

Definition table_fits (tbl : list (Z * Z)) : Prop :=
  Forall (λ info, fits_u64 info.1 ∧ fits_u64 info.2) tbl.

Definition result_fits (r : CompressionResult) : Prop :=
  fits_u64 (vsize (compressed_header r)) ∧
  fits_u64 (vsize (chunk_info r)) ∧
  table_fits (chunk_info r).

(** The sum of the compressed sizes that a chunk table declares. *)
Definition declared_payload (tbl : list (Z * Z)) : Z :=
  foldr (λ info acc, info.2 + acc) 0 tbl.

(** The classes of the error taxonomy of the design document (section 7),
    by the message the program prints. *)
Definition is_format_error (e : error) : bool :=
  match e with
  | InvalidSignature | ErrorReadingHeaderSize | ErrorReadingCompressedHeader
  | ErrorReadingNumChunks | ErrorReadingChunkInfo | InvalidFileOffsets
  | ErrorReadingTensorPayload => true
  | _ => false
  end.

(** The failure of the engine, which the program reports with one message
    whatever its cause. *)
Definition is_codec_error (e : error) : bool :=
  match e with
  | DecompressionFailed | CompressionFailed => true
  | _ => false
  end.

(** A handler returns to its caller, with its result or after one of its
    error messages, unless an allocation ended the program or its
    behaviour is undefined. *)
Definition returned {A} (res : error + A) : bool :=
  match res with
  | inl Terminated | inl OutOfBounds => false
  | _ => true
  end.


(** ** Observations on runs *)

(** The stream is good and [rest] is what is left to read. *)
Definition positioned (s : ifstream) (rest : list byte) : Prop :=
  good s = true ∧ 0 ≤ gpos s ≤ vsize (ibuf s) ∧
  drop (Z.to_nat (gpos s)) (ibuf s) = rest.

(** The events that a run from [m] to [m'] has added to the log. *)
Definition new_events (m m' : machine) : list event :=
  drop (length (trace m)) (trace m').

(** The output files that the logged events create, in order. *)
Definition created_files (evs : list event) : list string :=
  omap (λ ev, match ev with EvCreate path => Some path | _ => None end) evs.

(** The test of the batch loops on a directory entry: a regular file whose
    extension is [ext]. *)
Definition selected {P : StdPath} (ext : string) (entry : string * bool)
    : bool :=
  entry.2 && bool_decide (path_extension entry.1 = ext).

(** The output path that the batch loops give to an entry:
    [output_path / entry.path().filename().replace_extension(new_ext)]. *)
Definition batch_output {P : StdPath} (new_ext output_path entry_path : string)
    : string :=
  path_append output_path
    (path_replace_extension (path_filename entry_path) new_ext).


(** The invariants of the data model of the design document (section 3)
    for a persisted container: every size is a 64-bit quantity and the
    compressed sizes of the table add up to the length of the payload. *)
Definition valid_container (hdr : list byte) (tbl : list (Z * Z))
    (payload : list byte) : Prop :=
  fits_u64 (vsize hdr) ∧ fits_u64 (vsize tbl) ∧ table_fits tbl ∧
  declared_payload tbl = vsize payload.

(** The machine can allocate the four buffers that [handle_decompression]
    requests for a container: the signature, the compressed header, the
    chunk table and the payload. *)
Definition room_for (w : world) (hdr : list byte) (tbl : list (Z * Z))
    (payload : list byte) : Prop :=
  8 ≤ memory w ∧ vsize hdr ≤ memory w ∧ 16 * vsize tbl ≤ memory w ∧
  vsize payload ≤ memory w.

(** ** The contract of the engine *)

(** Modelled from the spec: the engine itself is not among the sources.
    "Round trip": what [compress] produces, [decompress] takes back to the
    metadata and the tensor payload it was given, bit for bit (sections 1,
    4.1 and 8 of the design document). *)
Definition engine_lossless (E : Engine) : Prop :=
  ∀ metadata tensors level r,
    compress_safetensor metadata tensors level = Some r →
    decompress_kang (compressed_header r) (compressed_tensors r)
      (chunk_info r) = Some (metadata, tensors).

(** Modelled from the spec: the sizes in a [CompressionResult] are byte
    counts of buffers in memory, "fixed-width unsigned integers" (sections
    6 and 9); in the C++ declarations they are [size_t]. *)
Definition engine_sizes_fit (E : Engine) : Prop :=
  ∀ metadata tensors level r,
    compress_safetensor metadata tensors level = Some r → result_fits r.

(** Modelled from the spec: the byte range of chunk [i] in the payload
    starts at the sum of the compressed sizes before it (section 4.3), and
    "declared sizes exceeding available bytes" are an error (section 7):
    a payload shorter than the table declares is refused. *)
Definition engine_checks_ranges (E : Engine) : Prop :=
  ∀ hdr payload tbl,
    table_fits tbl → vsize payload < declared_payload tbl →
    decompress_kang hdr payload tbl = None.

(** ** A reference engine

    An engine assembled as the design document describes its components
    (sections 4.1 to 4.3), over a codec that is left open ("lossless byte
    compressor with tunable effort").  It shows that the contract above
    can be met, and it is the engine the handlers are run with on
    concrete inputs. *)

Definition fits_u64b (z : Z) : bool := (0 <=? z) && (z <? 2 ^ 64).

Module Reference.
Section Codec.
(** The codec, used by the Header Packer on the metadata and by the
    executor on every chunk, and the target chunk size of the planner. *)
Variable codec_compress : Z → list byte → list byte.
Variable codec_decompress : list byte → option (list byte).
Variable chunk_size : nat.

(** Modelled from the spec: the Chunk Planner (section 4.2), which is not
    among the sources.  Ordered (offset, length) ranges of at most
    [chunk_size] bytes that cover [remaining] bytes from [offset] on; the
    last one may be shorter. *)
Fixpoint plan (fuel offset remaining : nat) : list (nat * nat) :=
  match fuel with
  | O => []
  | S fuel' =>
      if bool_decide (remaining = 0%nat) then []
      else
        let len := Nat.min chunk_size remaining in
        (offset, len) :: plan fuel' (offset + len)%nat (remaining - len)%nat
  end.

(** The bytes of a range. *)
Definition slice (payload : list byte) (range : nat * nat) : list byte :=
  take range.2 (drop range.1 payload).

(** The chunk table: the sizes of every chunk before and after the codec,
    in chunk order. *)
Definition table_of (chunks compressed : list (list byte)) : list (Z * Z) :=
  zip_with (λ c z, (vsize c, vsize z)) chunks compressed.

(** [result_fits] as a test. *)
Definition result_fits_b (r : CompressionResult) : bool :=
  fits_u64b (vsize (compressed_header r)) &&
  fits_u64b (vsize (chunk_info r)) &&
  forallb (λ info, fits_u64b info.1 && fits_u64b info.2) (chunk_info r).

(** Modelled from the spec: the forward direction of the Result Assembler
    (sections 4.3 and 4.5), which is not among the sources.  The header
    is packed as one unit, every planned chunk is compressed on its own,
    and the payload is the concatenation of the compressed chunks in
    chunk order.  A result with a size that no [size_t] holds is an
    error. *)
Definition compress (metadata tensors : list byte) (level : Z)
    : option CompressionResult :=
  let ranges := plan (length tensors) 0 (length tensors) in
  let chunks := map (slice tensors) ranges in
  let compressed := map (codec_compress level) chunks in
  let r := mk_result (codec_compress level metadata)
             (table_of chunks compressed) (concat compressed) in
  if result_fits_b r then Some r else None.

(** Modelled from the spec: the reverse direction of the executor (section
    4.3), which is not among the sources.  Chunk [i] lies in the payload
    at the sum of the compressed sizes before it; a range that leaves the
    payload, a chunk the codec refuses, or a chunk that does not have its
    declared original size is an error. *)
Fixpoint decode_chunks (tbl : list (Z * Z)) (offset : Z)
    (payload : list byte) : option (list byte) :=
  match tbl with
  | [] => Some []
  | (orig, comp) :: tbl' =>
      if (0 <=? comp) && (offset + comp <=? vsize payload) then
        match codec_decompress
                (take (Z.to_nat comp) (drop (Z.to_nat offset) payload)) with
        | Some chunk =>
            if vsize chunk =? orig then
              match decode_chunks tbl' (offset + comp) payload with
              | Some rest => Some (chunk ++ rest)
              | None => None
              end
            else None
        | None => None
        end
      else None
  end.

(** Modelled from the spec: the reverse direction of the Result Assembler
    (section 4.5), which is not among the sources. *)
Definition decompress (hdr payload : list byte) (tbl : list (Z * Z))
    : option (list byte * list byte) :=
  match codec_decompress hdr with
  | Some metadata =>
      match decode_chunks tbl 0 payload with
      | Some tensors => Some (metadata, tensors)
      | None => None
      end
  | None => None
  end.

(** Modelled from the spec: the two entry points of the engine (section
    6), which are not among the sources. *)
Definition engine : Engine :=
  {| compress_safetensor := compress; decompress_kang := decompress |}.
End Codec.

(** The stored codec keeps every chunk as it is; chunks have 4 bytes. *)
Definition stored : Engine := engine (λ _ x, x) Some 4.

End Reference.

(** ** Paths and worlds for runs on concrete inputs *)

(** The last occurrence of [c] splits a name in what is before and what
    is after it. *)
Fixpoint split_last (c : ascii) (l : list ascii)
    : option (list ascii * list ascii) :=
  match l with
  | [] => None
  | x :: r =>
      match split_last c r with
      | Some (a, b) => Some (x :: a, b)
      | None => if Ascii.eqb x c then Some ([], r) else None
      end
  end.

Definition posix_filename (p : string) : string :=
  match split_last "/" (list_ascii_of_string p) with
  | Some (_, b) => string_of_list_ascii b
  | None => p
  end.

Definition posix_extension (p : string) : string :=
  let f := posix_filename p in
  if bool_decide (f = ".") || bool_decide (f = "..") then ""
  else
    match split_last "." (list_ascii_of_string f) with
    | Some ([], _) => ""
    | Some (_, b) => String "." (string_of_list_ascii b)
    | None => ""
    end.

Definition posix_replace_extension (p ext : string) : string :=
  let n := (String.length p - String.length (posix_extension p))%nat in
  (substring 0 n p ++ ext)%string.

Definition posix_append (d f : string) : string :=
  if bool_decide (d = "") then f
  else
    match split_last "/" (list_ascii_of_string d) with
    | Some (_, []) => (d ++ f)%string
    | _ => (d ++ "/" ++ f)%string
    end.

(** A reading of the path functions for POSIX path names. *)
Definition posix_paths : StdPath :=
  {| path_extension := posix_extension;
     path_filename := posix_filename;
     path_replace_extension := posix_replace_extension;
     path_append := posix_append |}.

(** A small asset, its container, and damaged variants of both. *)
Definition sample_metadata : list byte := list_byte_of_string "{}".
Definition sample_tensors : list byte := list_byte_of_string "0123456789".
Definition sample_asset : list byte :=
  safetensors_layout sample_metadata sample_tensors.
Definition sample_container : list byte :=
  kang_layout sample_metadata [(4, 4); (4, 4); (2, 2)] sample_tensors.

Definition sample_files : gmap string (list byte) :=
  {[ "model.safetensors" := sample_asset;
     "model.kang" := sample_container;
     "cut.kang" := take 70 sample_container;
     "bad.kang" := list_byte_of_string "NOTAKANGFILE";
     "greedy.kang" := KANG_SIGNATURE ++ u64_bytes 1000;
     "huge.kang" := KANG_SIGNATURE ++ u64_bytes (2 ^ 40);
     "oversized.kang" := kang_layout [] [(5, 100)] [];
     "wrap.safetensors" := u64_bytes (2 ^ 64 - 3) ++ sample_metadata;
     "models/a.safetensors" := sample_asset;
     "models/b.safetensors" := sample_asset;
     "models/c.safetensors" := sample_asset;
     "models/notes.txt" := sample_metadata ]}.

Definition sample_world : world :=
  {| files := sample_files;
     can_create := λ _, true;
     status := λ p,
       Some (if bool_decide (p = "models") then Directory
             else if bool_decide (is_Some (sample_files !! p)) then Regular
             else NotFound);
     entries := λ p,
       if bool_decide (p = "models") then
         Some [("models/a.safetensors", true); ("models/b.safetensors", true);
               ("models/notes.txt", true); ("models/c.safetensors", true)]
       else None;
     iteration_fails := λ _, false;
     can_mkdir := λ _, true;
     heap := 2 ^ 32 |}.

(** The program on the sample world, with the reference engine. *)
Definition run_main (args : list string) : (error + Z) * machine :=
  main (E := Reference.stored) (P := posix_paths) args (boot sample_world).

(** The sample world on a medium where no output file can be created. *)
Definition readonly_world : world :=
  mk_world (files sample_world) (λ _, false) (status sample_world)
    (entries sample_world) (iteration_fails sample_world)
    (can_mkdir sample_world) (heap sample_world).

(** The sample world with a directory "broken" whose iteration visits two
    source files and then throws. *)
Definition faulty_world : world :=
  mk_world (files sample_world) (can_create sample_world)
    (λ p, if bool_decide (p = "broken") then Some Directory
          else status sample_world p)
    (λ p, if bool_decide (p = "broken") then
            Some [("models/a.safetensors", true);
                  ("models/b.safetensors", true)]
          else entries sample_world p)
    (λ p, bool_decide (p = "broken"))
    (can_mkdir sample_world) (heap sample_world).


(** ** Facts about fixed-width integers *)

Lemma vsize_nonneg {A} (l : list A) : 0 ≤ vsize l.
Proof. unfold vsize. lia. Qed.

Lemma vsize_app {A} (l k : list A) : vsize (l ++ k) = vsize l + vsize k.
Proof. unfold vsize. rewrite length_app. lia. Qed.

Lemma vsize_nil {A} : vsize (@nil A) = 0.
Proof. reflexivity. Qed.

Lemma vsize_u64_bytes v : vsize (u64_bytes v) = 8.
Proof. unfold vsize, u64_bytes. by rewrite length_le_split. Qed.

Lemma length_u64_bytes v : length (u64_bytes v) = 8%nat.
Proof. apply length_le_split. Qed.

Lemma u64_fits v : fits_u64 v → u64 v = v.
Proof. unfold fits_u64, u64. intros. by apply Z.mod_small. Qed.

Lemma u64_range v : fits_u64 (u64 v).
Proof. unfold fits_u64, u64. apply Z.mod_pos_bound. lia. Qed.

Lemma u64_bytes_wrap v : u64_bytes (u64 v) = u64_bytes v.
Proof. unfold u64_bytes, u64. symmetry. apply (le_split_mod v 8). Qed.

Lemma u64_of_u64_bytes v : u64_of_bytes (u64_bytes v) = u64 v.
Proof. unfold u64_of_bytes, u64_bytes, u64. apply (le_combine_split 8 v). Qed.

Lemma u64_of_bytes_fits bs : length bs = 8%nat → fits_u64 (u64_of_bytes bs).
Proof.
  intros Hlen. unfold fits_u64, u64_of_bytes.
  pose proof (le_combine_bound bs) as Hb. rewrite Hlen in Hb. exact Hb.
Qed.

Lemma vsize_KANG_SIGNATURE : vsize KANG_SIGNATURE = 8.
Proof. reflexivity. Qed.

Lemma vsize_encode_table tbl : vsize (encode_table tbl) = 16 * vsize tbl.
Proof.
  induction tbl as [|info tbl IH]; [done|].
  unfold encode_table in *. cbn [flat_map].
  rewrite !vsize_app, !vsize_u64_bytes, IH. unfold vsize. cbn [length]. lia.
Qed.

(** ** Facts about input streams *)

Lemma positioned_open content : positioned (ifs_open content) content.
Proof.
  unfold positioned, ifs_open; cbn. split_and!; try done.
  apply vsize_nonneg.
Qed.

Lemma positioned_size s rest :
  positioned s rest → vsize rest = vsize (ibuf s) - gpos s.
Proof.
  intros (_ & Hpos & <-). unfold vsize in *. rewrite length_drop. lia.
Qed.

Lemma ifs_read_positioned s x rest :
  positioned s (x ++ rest) →
  ∃ s', ifs_read s (vsize x) = (x, s') ∧ positioned s' rest
        ∧ ibuf s' = ibuf s.
Proof.
  intros Hp. pose proof (positioned_size _ _ Hp) as Hsz.
  destruct Hp as (Hg & Hpos & Hd). rewrite vsize_app in Hsz.
  pose proof (vsize_nonneg x). pose proof (vsize_nonneg rest).
  exists (mk_ifstream (ibuf s) (gpos s + vsize x) false false).
  unfold ifs_read. rewrite Hg.
  rewrite (proj2 (Z.leb_le _ _)) by lia.
  split; [|split; [|done]].
  - f_equal. rewrite Hd. unfold vsize. rewrite Nat2Z.id.
    by rewrite take_app_length.
  - unfold positioned; cbn. split; [done|]. split; [lia|].
    rewrite Z2Nat.inj_add by lia. rewrite <- drop_drop, Hd.
    unfold vsize. rewrite Nat2Z.id. by rewrite drop_app_length.
Qed.

Lemma ifs_read_short s rest n :
  positioned s rest → vsize rest < n → good (ifs_read s n).2 = false.
Proof.
  intros Hp Hn. pose proof (positioned_size _ _ Hp) as Hsz.
  destruct Hp as (Hg & Hpos & Hd).
  unfold ifs_read. rewrite Hg.
  rewrite (proj2 (Z.leb_gt _ _)) by lia. done.
Qed.

Lemma read_u64_positioned s v rest :
  fits_u64 v → positioned s (u64_bytes v ++ rest) →
  ∃ s', read_u64 s = (true, v, s') ∧ positioned s' rest.
Proof.
  intros Hv Hp. destruct (ifs_read_positioned _ _ _ Hp) as (s' & Hr & Hp' & _).
  rewrite vsize_u64_bytes in Hr.
  exists s'. unfold read_u64. rewrite Hr.
  rewrite u64_of_u64_bytes, (u64_fits _ Hv).
  destruct Hp' as (Hg & Hrest). rewrite Hg. split; [done|].
  split; [exact Hg|exact Hrest].
Qed.

Lemma read_u64_short s rest :
  positioned s rest → vsize rest < 8 → (read_u64 s).1.1 = false.
Proof.
  intros Hp Hn. unfold read_u64.
  pose proof (ifs_read_short _ _ 8 Hp Hn) as Hg.
  by destruct (ifs_read s 8) as [bs s'].
Qed.

Lemma read_u64_bytes s a rest :
  length a = 8%nat → positioned s (a ++ rest) →
  ∃ s', read_u64 s = (true, u64_of_bytes a, s') ∧ positioned s' rest.
Proof.
  intros Ha Hp. destruct (ifs_read_positioned _ _ _ Hp) as (s' & Hr & Hp' & _).
  unfold vsize in Hr. rewrite Ha in Hr. change (Z.of_nat 8) with 8 in Hr.
  exists s'. unfold read_u64. rewrite Hr.
  destruct Hp' as (Hg & Hrest). rewrite Hg. split; [done|].
  split; [exact Hg|exact Hrest].
Qed.

Lemma split_at_8 (l : list byte) :
  8 ≤ vsize l → ∃ a rest, l = a ++ rest ∧ length a = 8%nat.
Proof.
  intros Hl. exists (take 8 l), (drop 8 l). split.
  - by rewrite take_drop.
  - rewrite length_take. unfold vsize in Hl. lia.
Qed.

Lemma encode_table_cons info tbl :
  encode_table (info :: tbl) =
  u64_bytes info.1 ++ u64_bytes info.2 ++ encode_table tbl.
Proof. unfold encode_table. cbn [flat_map]. by rewrite <- app_assoc. Qed.

Lemma read_chunk_info_positioned tbl :
  ∀ s acc rest,
    table_fits tbl → positioned s (encode_table tbl ++ rest) →
    ∃ s', read_chunk_info (length tbl) s acc = (Some (acc ++ tbl), s')
          ∧ positioned s' rest.
Proof.
  induction tbl as [|info tbl IH]; intros s acc rest Hfit Hp.
  - exists s. cbn. by rewrite app_nil_r.
  - apply Forall_cons in Hfit as [[Ho Hc] Hfit].
    rewrite encode_table_cons, <- !app_assoc in Hp.
    destruct (read_u64_positioned _ _ _ Ho Hp) as (s1 & Hr1 & Hp1).
    destruct (read_u64_positioned _ _ _ Hc Hp1) as (s2 & Hr2 & Hp2).
    destruct (IH s2 (acc ++ [info]) rest Hfit Hp2) as (s3 & Hr3 & Hp3).
    exists s3. cbn [length read_chunk_info]. rewrite Hr1. cbn [negb].
    rewrite Hr2. cbn [negb]. rewrite <- surjective_pairing, Hr3.
    by rewrite <- app_assoc.
Qed.

Lemma read_chunk_info_short n :
  ∀ s acc rest,
    positioned s rest → vsize rest < 16 * Z.of_nat n →
    (read_chunk_info n s acc).1 = None.
Proof.
  induction n as [|n IH]; intros s acc rest Hp Hlen.
  - pose proof (vsize_nonneg rest). lia.
  - cbn [read_chunk_info].
    destruct (Z.lt_ge_cases (vsize rest) 8) as [Hs|Hs].
    { pose proof (read_u64_short _ _ Hp Hs) as Hf.
      destruct (read_u64 s) as [[ok v] s1]. cbn in Hf. by rewrite Hf. }
    destruct (split_at_8 _ Hs) as (a & rest1 & -> & Ha).
    destruct (read_u64_bytes _ _ _ Ha Hp) as (s1 & -> & Hp1). cbn [negb].
    rewrite vsize_app in Hlen. unfold vsize at 1 in Hlen. rewrite Ha in Hlen.
    destruct (Z.lt_ge_cases (vsize rest1) 8) as [Hs1|Hs1].
    { pose proof (read_u64_short _ _ Hp1 Hs1) as Hf.
      destruct (read_u64 s1) as [[ok v] s2]. cbn in Hf. by rewrite Hf. }
    destruct (split_at_8 _ Hs1) as (b & rest2 & -> & Hb).
    destruct (read_u64_bytes _ _ _ Hb Hp1) as (s2 & -> & Hp2). cbn [negb].
    rewrite vsize_app in Hlen. unfold vsize at 1 in Hlen. rewrite Hb in Hlen.
    apply (IH _ _ rest2 Hp2). lia.
Qed.

(** Conversely, a read that leaves the stream good has consumed what it
    returns. *)
Lemma ifs_read_inv s n x s' rest :
  positioned s rest → 0 ≤ n → ifs_read s n = (x, s') → good s' = true →
  ∃ rest', rest = x ++ rest' ∧ vsize x = n ∧ positioned s' rest'.
Proof.
  intros Hp Hn Hr Hg'. pose proof (positioned_size _ _ Hp) as Hsz.
  destruct Hp as (Hg & Hpos & Hd).
  unfold ifs_read in Hr. rewrite Hg in Hr.
  destruct (n <=? vsize (ibuf s) - gpos s) eqn:Hle; [|by simplify_eq].
  simplify_eq.
  apply Z.leb_le in Hle.
  exists (drop (Z.to_nat n) (drop (Z.to_nat (gpos s)) (ibuf s))).
  split; [by rewrite take_drop|]. split.
  - unfold vsize in *. rewrite length_take, length_drop. lia.
  - split; [done|]. cbn. split; [lia|].
    rewrite drop_drop. f_equal. lia.
Qed.

Lemma read_u64_inv s v s' rest :
  positioned s rest → read_u64 s = (true, v, s') →
  ∃ rest', rest = u64_bytes v ++ rest' ∧ fits_u64 v ∧ positioned s' rest'.
Proof.
  intros Hp Hr. unfold read_u64 in Hr.
  destruct (ifs_read s 8) as [bs s1] eqn:Hread. simplify_eq.
  assert (H8 : 0 ≤ 8) by lia.
  destruct (ifs_read_inv _ _ _ _ _ Hp H8 Hread) as (rest' & -> & Hlen & Hp');
    [done|].
  assert (Hl : length bs = 8%nat) by (unfold vsize in Hlen; lia).
  exists rest'. split; [|split; [by apply u64_of_bytes_fits|done]].
  f_equal. unfold u64_bytes, u64_of_bytes. symmetry.
  by apply split_le_combine'.
Qed.

Lemma read_chunk_info_inv n : ∀ s acc chunks s' rest,
  positioned s rest → read_chunk_info n s acc = (Some chunks, s') →
  ∃ tbl rest',
    chunks = acc ++ tbl ∧ length tbl = n ∧ table_fits tbl ∧
    rest = encode_table tbl ++ rest' ∧ positioned s' rest'.
Proof.
  induction n as [|n IH]; intros s acc chunks s' rest Hp Hr.
  - cbn in Hr. simplify_eq. exists [], rest.
    rewrite app_nil_r. split_and!; try done. constructor.
  - cbn [read_chunk_info] in Hr.
    destruct (read_u64 s) as [[ok1 orig] s1] eqn:R1.
    destruct ok1; cbn [negb] in Hr; [|done].
    destruct (read_u64 s1) as [[ok2 comp] s2] eqn:R2.
    destruct ok2; cbn [negb] in Hr; [|done].
    destruct (read_u64_inv _ _ _ _ Hp R1) as (rest1 & -> & Ho & Hp1).
    destruct (read_u64_inv _ _ _ _ Hp1 R2) as (rest2 & -> & Hc & Hp2).
    destruct (IH _ _ _ _ _ Hp2 Hr) as (tbl & rest' & -> & Hlen & Hfit & -> & Hp').
    exists ((orig, comp) :: tbl), rest'.
    rewrite <- app_assoc. split; [done|]. split; [cbn; lia|].
    split; [by constructor|]. split; [|done].
    rewrite encode_table_cons. cbn [fst snd]. by rewrite <- !app_assoc.
Qed.

(** Reading the rest of the stream, as lines 144-158 do. *)
Lemma read_remainder s rest :
  positioned s rest →
  tellg s = gpos s ∧ tellg (seekg_end s) = vsize (ibuf s) ∧
  gpos s ≤ vsize (ibuf s) ∧ 0 ≤ gpos s ∧
  vsize (ibuf s) - gpos s = vsize rest ∧
  ∃ s', ifs_read (seekg (seekg_end s) (gpos s)) (vsize rest) = (rest, s')
        ∧ good s' = true.
Proof.
  intros Hp. pose proof (positioned_size _ _ Hp) as Hsz.
  destruct Hp as (Hg & Hpos & Hd).
  unfold good in Hg. apply andb_true_iff in Hg as [He Hf].
  apply negb_true_iff in He, Hf.
  unfold tellg, seekg_end, seekg. rewrite Hf. cbn.
  rewrite (proj2 (Z.ltb_ge _ _)) by lia.
  split_and!; try done; try lia.
  assert (Hp' : positioned (mk_ifstream (ibuf s) (gpos s) false false)
                  (rest ++ [])).
  { rewrite app_nil_r. by split. }
  destruct (ifs_read_positioned _ _ _ Hp') as (s' & Hr & (Hg' & _) & _).
  exists s'. by split.
Qed.

(** ** Running the handlers *)

Lemma set_file_twice w q a b :
  set_file (set_file w q a) q b = set_file w q b.
Proof. unfold set_file; cbn. f_equal. apply insert_insert_eq. Qed.

Lemma bind_alloc_ok {A} (n : Z) (k : unit → M A) (m : machine) :
  n ≤ memory (fs m) →
  bind (alloc n) k m = k tt (mk_machine (fs m) (trace m ++ [EvAlloc n])).
Proof.
  intros Hn. unfold bind, alloc. by rewrite (proj2 (Z.leb_le _ _) Hn).
Qed.

Lemma bind_alloc_terminated {A} (n : Z) (k : unit → M A) (m : machine) :
  memory (fs m) < n →
  bind (alloc n) k m =
    (inl Terminated, mk_machine (fs m) (trace m ++ [EvAlloc n])).
Proof.
  intros Hn. unfold bind, alloc. by rewrite (proj2 (Z.leb_gt _ _) Hn).
Qed.

(** Unfolds the operations of [M] down to the machine they act on. *)
Ltac run :=
  repeat (progress
    (unfold bind, ofs_open, get_world, put_world, emit, ret, ofs_close,
       throw, undefined, alloc, print_usage;
     cbn zeta;
     cbn [fs trace can_create files status entries iteration_fails
          can_mkdir heap
          set_file fst snd opath obuf ofs_write])).

Lemma new_events_app m w evs :
  new_events m (mk_machine w (trace m ++ evs)) = evs.
Proof. unfold new_events; cbn. by rewrite drop_app_length. Qed.

(** One allocation in a run that is known to reach its end: it was
    granted. *)
Ltac alloc_step :=
  match goal with
  | |- context [bind (alloc ?n) _ ?m0] =>
      let Hm := fresh "Hmem" in
      destruct (Z.le_gt_cases n (memory (fs m0))) as [Hm|Hm];
      [rewrite (bind_alloc_ok n _ m0 Hm)
      |rewrite (bind_alloc_terminated n _ m0 Hm); intros [=]]
  end.

(** No output file is created among the listed events. *)
Ltac no_create :=
  let path := fresh "path" in let Hin := fresh "Hin" in
  intros path Hin;
  repeat (apply elem_of_cons in Hin as [Hin|Hin]; [discriminate Hin|]);
  by apply elem_of_nil in Hin.

Ltac settle_trace :=
  rewrite <- ?app_assoc; cbn [app]; rewrite ?new_events_app.

(** A machine that can hold a container can hold its parts. *)
Lemma kang_layout_memory (w : world) hdr tbl payload :
  vsize (kang_layout hdr tbl payload) ≤ memory w →
  room_for w hdr tbl payload.
Proof.
  unfold kang_layout, room_for.
  rewrite !vsize_app, !vsize_u64_bytes, vsize_KANG_SIGNATURE,
    vsize_encode_table.
  pose proof (vsize_nonneg hdr). pose proof (vsize_nonneg tbl).
  pose proof (vsize_nonneg payload). lia.
Qed.

Section Handlers.
Context {E : Engine}.

(** A stream that has the layout of a container passes the reader, and
    the engine receives the three parts as they were framed. *)
Lemma handle_decompression_accepts m p q hdr tbl payload :
  files (fs m) !! p = Some (kang_layout hdr tbl payload) →
  fits_u64 (vsize hdr) → fits_u64 (vsize tbl) → table_fits tbl →
  room_for (fs m) hdr tbl payload →
  handle_decompression p q m =
    let t := trace m ++ [EvAlloc 8; EvAlloc (vsize hdr);
                         EvAlloc (16 * vsize tbl); EvAlloc (vsize payload);
                         EvDecompress] in
    match decompress_kang hdr payload tbl with
    | None => (inl DecompressionFailed,
               mk_machine (fs m) (t ++ [EvStderr DecompressionFailed]))
    | Some (json_header, tensor_data) =>
        if can_create (fs m) q then
          (inr tt,
           mk_machine
             (set_file (fs m) q (safetensors_layout json_header tensor_data))
             (t ++ [EvCreate q]))
        else (inl CannotCreateOutput,
              mk_machine (fs m) (t ++ [EvStderr CannotCreateOutput]))
    end.
Proof.
  intros Hfile Hh Hk Ht (M8 & Mh & Mt & Mp).
  unfold handle_decompression, kang_layout in *.
  unfold bind at 1. unfold get_world at 1. rewrite Hfile.
  pose proof (positioned_open (kang_layout hdr tbl payload)) as P0.
  unfold kang_layout in P0.
  destruct (ifs_read_positioned _ _ _ P0) as (s1 & R1 & P1 & _).
  rewrite bind_alloc_ok by done. rewrite R1.
  destruct (read_u64_positioned _ _ _ Hh P1) as (s2 & R2 & P2).
  destruct (ifs_read_positioned _ _ _ P2) as (s3 & R3 & P3 & _).
  destruct (read_u64_positioned _ _ _ Hk P3) as (s4 & R4 & P4).
  destruct (read_chunk_info_positioned tbl s4 [] payload Ht) as (s5 & R5 & P5).
  { exact P4. }
  destruct (read_remainder _ _ P5) as (T1 & T2 & T3 & T4 & T5 & s6 & R6 & G6).
  rewrite (proj1 P1), bool_decide_eq_true_2 by done. cbn [negb orb].
  rewrite R2. cbn [negb]. rewrite bind_alloc_ok by done.
  rewrite R3, (proj1 P3). cbn [negb].
  rewrite R4. cbn [negb]. rewrite bind_alloc_ok by done.
  unfold vsize at 1. rewrite Nat2Z.id, R5. cbn [app].
  rewrite T2, T1, T5.
  rewrite (proj2 (Z.ltb_ge _ _)) by lia.
  rewrite (proj2 (Z.ltb_ge _ _)) by lia. cbn [orb].
  rewrite bind_alloc_ok by done. rewrite R6, G6. cbn [negb].
  unfold bind at 1, emit at 1.
  cbn [fs trace]. rewrite <- !app_assoc. cbn [app].
  rewrite vsize_KANG_SIGNATURE.
  destruct (decompress_kang hdr payload tbl) as [[json_header tensor_data]|];
    [|unfold throw; cbn [fs trace]; by rewrite <- !app_assoc].
  run.
  destruct (can_create (fs m) q); cbn [fs trace].
  all: rewrite <- ?app_assoc; cbn [app]; try done.
  f_equal. f_equal. unfold safetensors_layout.
  case_bool_decide; subst; cbn [ofs_write opath obuf app];
    rewrite set_file_twice, u64_bytes_wrap, ?app_nil_r; done.
Qed.

(** *** Where the reader stops on a stream that ends early *)

Lemma handle_decompression_no_file m p q :
  files (fs m) !! p = None →
  handle_decompression p q m =
    (inl CannotOpenInputFile,
     mk_machine (fs m) (trace m ++ [EvStderr CannotOpenInputFile])).
Proof. intros Hfile. unfold handle_decompression. run. by rewrite Hfile. Qed.

Lemma handle_decompression_bad_signature m p q content :
  files (fs m) !! p = Some content →
  take 8 content ≠ KANG_SIGNATURE →
  8 ≤ memory (fs m) →
  handle_decompression p q m =
    (inl InvalidSignature,
     mk_machine (fs m) (trace m ++ [EvAlloc 8; EvStderr InvalidSignature])).
Proof.
  intros Hfile Hsig M8. unfold handle_decompression.
  unfold bind at 1, get_world at 1. rewrite Hfile.
  rewrite vsize_KANG_SIGNATURE, bind_alloc_ok by done.
  unfold ifs_read, ifs_open. cbn [good eofbit failbit negb andb ibuf gpos].
  rewrite Z.sub_0_r. change (Z.to_nat 0) with 0%nat. rewrite drop_0.
  destruct (8 <=? vsize content) eqn:Hlen; cbn [good eofbit failbit negb andb orb].
  - rewrite bool_decide_eq_false_2 by done. cbn [negb].
    run. by rewrite <- app_assoc.
  - run. by rewrite <- app_assoc.
Qed.

Lemma handle_decompression_no_header_size m p q r :
  files (fs m) !! p = Some (KANG_SIGNATURE ++ r) →
  vsize r < 8 →
  8 ≤ memory (fs m) →
  handle_decompression p q m =
    (inl ErrorReadingHeaderSize,
     mk_machine (fs m)
       (trace m ++ [EvAlloc 8; EvStderr ErrorReadingHeaderSize])).
Proof.
  intros Hfile Hr M8. unfold handle_decompression.
  unfold bind at 1, get_world at 1. rewrite Hfile.
  pose proof (positioned_open (KANG_SIGNATURE ++ r)) as P0.
  destruct (ifs_read_positioned _ _ _ P0) as (s1 & R1 & P1 & _).
  rewrite bind_alloc_ok by done. rewrite R1.
  rewrite (proj1 P1), bool_decide_eq_true_2 by done. cbn [negb orb].
  pose proof (read_u64_short _ _ P1 Hr) as Hf.
  destruct (read_u64 s1) as [[ok v] s2]. cbn in Hf. subst ok. cbn [negb].
  run. by rewrite <- app_assoc.
Qed.

Lemma handle_decompression_short_header m p q H r :
  files (fs m) !! p = Some (KANG_SIGNATURE ++ u64_bytes H ++ r) →
  fits_u64 H → vsize r < H →
  8 ≤ memory (fs m) → H ≤ memory (fs m) →
  handle_decompression p q m =
    (inl ErrorReadingCompressedHeader,
     mk_machine (fs m)
       (trace m ++ [EvAlloc 8; EvAlloc H;
                    EvStderr ErrorReadingCompressedHeader])).
Proof.
  intros Hfile HH Hr M8 Mh. unfold handle_decompression.
  unfold bind at 1, get_world at 1. rewrite Hfile.
  pose proof (positioned_open (KANG_SIGNATURE ++ u64_bytes H ++ r)) as P0.
  destruct (ifs_read_positioned _ _ _ P0) as (s1 & R1 & P1 & _).
  rewrite bind_alloc_ok by done. rewrite R1.
  rewrite (proj1 P1), bool_decide_eq_true_2 by done. cbn [negb orb].
  destruct (read_u64_positioned _ _ _ HH P1) as (s2 & R2 & P2).
  rewrite R2. cbn [negb]. rewrite bind_alloc_ok by done.
  pose proof (ifs_read_short _ _ H P2 Hr) as Hf.
  destruct (ifs_read s2 H) as [bs s3]. cbn in Hf. rewrite Hf. cbn [negb].
  run. rewrite vsize_KANG_SIGNATURE. by rewrite <- !app_assoc.
Qed.

Lemma handle_decompression_no_chunk_count m p q hdr r :
  files (fs m) !! p =
    Some (KANG_SIGNATURE ++ u64_bytes (vsize hdr) ++ hdr ++ r) →
  fits_u64 (vsize hdr) → vsize r < 8 →
  8 ≤ memory (fs m) → vsize hdr ≤ memory (fs m) →
  handle_decompression p q m =
    (inl ErrorReadingNumChunks,
     mk_machine (fs m)
       (trace m ++ [EvAlloc 8; EvAlloc (vsize hdr);
                    EvStderr ErrorReadingNumChunks])).
Proof.
  intros Hfile HH Hr M8 Mh. unfold handle_decompression.
  unfold bind at 1, get_world at 1. rewrite Hfile.
  pose proof (positioned_open
                (KANG_SIGNATURE ++ u64_bytes (vsize hdr) ++ hdr ++ r)) as P0.
  destruct (ifs_read_positioned _ _ _ P0) as (s1 & R1 & P1 & _).
  rewrite bind_alloc_ok by done. rewrite R1.
  rewrite (proj1 P1), bool_decide_eq_true_2 by done. cbn [negb orb].
  destruct (read_u64_positioned _ _ _ HH P1) as (s2 & R2 & P2).
  rewrite R2. cbn [negb]. rewrite bind_alloc_ok by done.
  destruct (ifs_read_positioned _ _ _ P2) as (s3 & R3 & P3 & _).
  rewrite R3, (proj1 P3). cbn [negb].
  pose proof (read_u64_short _ _ P3 Hr) as Hf.
  destruct (read_u64 s3) as [[ok v] s4]. cbn in Hf. subst ok. cbn [negb].
  run. rewrite vsize_KANG_SIGNATURE. by rewrite <- !app_assoc.
Qed.

Lemma handle_decompression_short_table m p q hdr K r :
  files (fs m) !! p =
    Some (KANG_SIGNATURE ++ u64_bytes (vsize hdr) ++ hdr ++
          u64_bytes K ++ r) →
  fits_u64 (vsize hdr) → fits_u64 K → vsize r < 16 * K →
  8 ≤ memory (fs m) → vsize hdr ≤ memory (fs m) → 16 * K ≤ memory (fs m) →
  handle_decompression p q m =
    (inl ErrorReadingChunkInfo,
     mk_machine (fs m)
       (trace m ++ [EvAlloc 8; EvAlloc (vsize hdr); EvAlloc (16 * K);
                    EvStderr ErrorReadingChunkInfo])).
Proof.
  intros Hfile HH HK Hr M8 Mh Mt. unfold handle_decompression.
  unfold bind at 1, get_world at 1. rewrite Hfile.
  pose proof (positioned_open
                (KANG_SIGNATURE ++ u64_bytes (vsize hdr) ++ hdr ++
                 u64_bytes K ++ r)) as P0.
  destruct (ifs_read_positioned _ _ _ P0) as (s1 & R1 & P1 & _).
  rewrite bind_alloc_ok by done. rewrite R1.
  rewrite (proj1 P1), bool_decide_eq_true_2 by done. cbn [negb orb].
  destruct (read_u64_positioned _ _ _ HH P1) as (s2 & R2 & P2).
  rewrite R2. cbn [negb]. rewrite bind_alloc_ok by done.
  destruct (ifs_read_positioned _ _ _ P2) as (s3 & R3 & P3 & _).
  rewrite R3, (proj1 P3). cbn [negb].
  destruct (read_u64_positioned _ _ _ HK P3) as (s4 & R4 & P4).
  rewrite R4. cbn [negb]. rewrite bind_alloc_ok by done.
  assert (Hshort : vsize r < 16 * Z.of_nat (Z.to_nat K)).
  { unfold fits_u64 in HK. lia. }
  pose proof (read_chunk_info_short (Z.to_nat K) s4 [] r P4 Hshort) as Hf.
  destruct (read_chunk_info (Z.to_nat K) s4 []) as [chunks s5].
  cbn in Hf. subst chunks.
  run. rewrite vsize_KANG_SIGNATURE. by rewrite <- !app_assoc.
Qed.

(** The declared sizes are requested before anything is read into them: a
    size that cannot be allocated ends the program at the request, whatever
    the stream holds after it. *)
Lemma handle_decompression_header_too_large m p q H r :
  files (fs m) !! p = Some (KANG_SIGNATURE ++ u64_bytes H ++ r) →
  fits_u64 H →
  8 ≤ memory (fs m) → memory (fs m) < H →
  handle_decompression p q m =
    (inl Terminated,
     mk_machine (fs m) (trace m ++ [EvAlloc 8; EvAlloc H])).
Proof.
  intros Hfile HH M8 Mh. unfold handle_decompression.
  unfold bind at 1, get_world at 1. rewrite Hfile.
  pose proof (positioned_open (KANG_SIGNATURE ++ u64_bytes H ++ r)) as P0.
  destruct (ifs_read_positioned _ _ _ P0) as (s1 & R1 & P1 & _).
  rewrite bind_alloc_ok by done. rewrite R1.
  rewrite (proj1 P1), bool_decide_eq_true_2 by done. cbn [negb orb].
  destruct (read_u64_positioned _ _ _ HH P1) as (s2 & R2 & P2).
  rewrite R2. cbn [negb]. rewrite bind_alloc_terminated by done.
  cbn [fs trace]. rewrite vsize_KANG_SIGNATURE. by rewrite <- !app_assoc.
Qed.

Lemma handle_decompression_table_too_large m p q hdr K r :
  files (fs m) !! p =
    Some (KANG_SIGNATURE ++ u64_bytes (vsize hdr) ++ hdr ++
          u64_bytes K ++ r) →
  fits_u64 (vsize hdr) → fits_u64 K →
  8 ≤ memory (fs m) → vsize hdr ≤ memory (fs m) → memory (fs m) < 16 * K →
  handle_decompression p q m =
    (inl Terminated,
     mk_machine (fs m)
       (trace m ++ [EvAlloc 8; EvAlloc (vsize hdr); EvAlloc (16 * K)])).
Proof.
  intros Hfile HH HK M8 Mh Mt. unfold handle_decompression.
  unfold bind at 1, get_world at 1. rewrite Hfile.
  pose proof (positioned_open
                (KANG_SIGNATURE ++ u64_bytes (vsize hdr) ++ hdr ++
                 u64_bytes K ++ r)) as P0.
  destruct (ifs_read_positioned _ _ _ P0) as (s1 & R1 & P1 & _).
  rewrite bind_alloc_ok by done. rewrite R1.
  rewrite (proj1 P1), bool_decide_eq_true_2 by done. cbn [negb orb].
  destruct (read_u64_positioned _ _ _ HH P1) as (s2 & R2 & P2).
  rewrite R2. cbn [negb]. rewrite bind_alloc_ok by done.
  destruct (ifs_read_positioned _ _ _ P2) as (s3 & R3 & P3 & _).
  rewrite R3, (proj1 P3). cbn [negb].
  destruct (read_u64_positioned _ _ _ HK P3) as (s4 & R4 & P4).
  rewrite R4. cbn [negb]. rewrite bind_alloc_terminated by done.
  cbn [fs trace]. rewrite vsize_KANG_SIGNATURE. by rewrite <- !app_assoc.
Qed.

(** *** What a run of a handler leaves behind *)

Lemma read_all_spec m p :
  read_all p m =
    match files (fs m) !! p with
    | None => (inr (false, []), m)
    | Some content =>
        let m' := mk_machine (fs m) (trace m ++ [EvAlloc (vsize content)]) in
        if vsize content <=? memory (fs m) then (inr (true, content), m')
        else (inl Terminated, m')
    end.
Proof.
  unfold read_all. unfold bind at 1, get_world at 1.
  destruct (files (fs m) !! p) as [content|]; [|by destruct m].
  unfold seekg_end, ifs_open, tellg, seekg. cbn [failbit ibuf gpos].
  pose proof (vsize_nonneg content).
  rewrite (proj2 (Z.ltb_ge _ _)) by lia. cbn [Z.ltb Z.compare].
  cbn zeta.
  destruct (Z.le_gt_cases (vsize content) (memory (fs m))) as [Hm|Hm].
  - rewrite bind_alloc_ok, (proj2 (Z.leb_le _ _) Hm) by done.
    assert (P : positioned (mk_ifstream content 0 false false)
                  (content ++ [])).
    { rewrite app_nil_r. apply positioned_open. }
    destruct (ifs_read_positioned _ _ _ P) as (s' & -> & (Hg & _) & _).
    by rewrite Hg.
  - by rewrite bind_alloc_terminated, (proj2 (Z.leb_gt _ _) Hm) by done.
Qed.

Lemma handle_decompression_fail m p q e m' :
  handle_decompression p q m = (inl e, m') →
  fs m' = fs m ∧ (∀ path, EvCreate path ∉ new_events m m').
Proof.
  unfold handle_decompression. run.
  repeat (case_match; run); intros [= <- <-]; simplify_eq; cbn [fs trace];
    (split; [done|settle_trace; no_create]).
Qed.

(** A run of [handle_decompression] that reaches its end has read a
    stream with the layout of a container. *)
Lemma handle_decompression_ok m p q u m' :
  handle_decompression p q m = (inr u, m') →
  ∃ hdr tbl payload metadata tensors,
    files (fs m) !! p = Some (kang_layout hdr tbl payload) ∧
    fits_u64 (vsize hdr) ∧ fits_u64 (vsize tbl) ∧ table_fits tbl ∧
    room_for (fs m) hdr tbl payload ∧
    decompress_kang hdr payload tbl = Some (metadata, tensors) ∧
    can_create (fs m) q = true ∧
    fs m' = set_file (fs m) q (safetensors_layout metadata tensors) ∧
    new_events m m' =
      [EvAlloc 8; EvAlloc (vsize hdr); EvAlloc (16 * vsize tbl);
       EvAlloc (vsize payload); EvDecompress; EvCreate q].
Proof.
  intros Hrun.
  destruct (files (fs m) !! p) as [content|] eqn:Hfile;
    [|by rewrite (handle_decompression_no_file m p q Hfile) in Hrun].
  revert Hrun. unfold handle_decompression.
  unfold bind at 1, get_world at 1. rewrite Hfile.
  rewrite vsize_KANG_SIGNATURE. alloc_step. cbn [fs] in *.
  pose proof (positioned_open content) as P0.
  destruct (ifs_read _ _) as [sig s1] eqn:R1.
  destruct (good s1) eqn:G1; [|intros [=]].
  case_bool_decide as Hsig; [|intros [=]]. cbn [negb orb]. subst sig.
  assert (H8 : 0 ≤ 8) by done.
  destruct (ifs_read_inv _ _ _ _ _ P0 H8 R1 G1) as (rest1 & -> & _ & P1).
  destruct (read_u64 s1) as [[ok2 H] s2] eqn:R2.
  destruct ok2; cbn [negb]; [|intros [=]].
  destruct (read_u64_inv _ _ _ _ P1 R2) as (rest2 & -> & HH & P2).
  alloc_step. cbn [fs] in *.
  destruct (ifs_read s2 H) as [hdr s3] eqn:R3.
  destruct (good s3) eqn:G3; cbn [negb]; [|intros [=]].
  destruct (ifs_read_inv _ _ _ _ _ P2 (proj1 HH) R3 G3) as (rest3 & -> & <- & P3).
  destruct (read_u64 s3) as [[ok4 K] s4] eqn:R4.
  destruct ok4; cbn [negb]; [|intros [=]].
  destruct (read_u64_inv _ _ _ _ P3 R4) as (rest4 & -> & HK & P4).
  alloc_step. cbn [fs] in *.
  destruct (read_chunk_info _ _ _) as [[chunks|] s5] eqn:R5; [|intros [=]].
  destruct (read_chunk_info_inv _ _ _ _ _ _ P4 R5)
    as (tbl & payload & -> & Hlen & Htbl & -> & P5).
  cbn [app].
  assert (HKt : K = vsize tbl).
  { unfold vsize, fits_u64 in *. lia. }
  subst K.
  destruct (read_remainder _ _ P5) as (T1 & T2 & T3 & T4 & T5 & s6 & R6 & G6).
  rewrite T2, T1, T5.
  rewrite (proj2 (Z.ltb_ge _ _)) by lia.
  rewrite (proj2 (Z.ltb_ge _ _)) by lia. cbn [orb].
  alloc_step. cbn [fs] in *. rewrite R6, G6. cbn [negb].
  unfold bind at 1, emit at 1.
  destruct (decompress_kang hdr payload tbl) as [[metadata tensors]|] eqn:Hd;
    [|intros [=]].
  run. destruct (can_create (fs m) q) eqn:Hq; run; [|intros [=]].
  intros [= <- <-].
  exists hdr, tbl, payload, metadata, tensors.
  split_and!; try done.
  - case_bool_decide as Hb; cbn [fs ofs_write opath obuf app];
      rewrite set_file_twice, u64_bytes_wrap; unfold safetensors_layout;
      [by rewrite Hb, app_nil_r|by rewrite <- app_assoc].
  - case_bool_decide; cbn [fs trace]; settle_trace; done.
Qed.

Lemma fold_write_chunk_info tbl : ∀ o,
  fold_left write_chunk_info tbl o =
  mk_ofstream (opath o) (obuf o ++ encode_table tbl).
Proof.
  induction tbl as [|info tbl IH]; intros [path buf]; cbn [fold_left].
  - cbn. by rewrite app_nil_r.
  - rewrite IH. unfold write_chunk_info, ofs_write. cbn [opath obuf].
    rewrite !u64_bytes_wrap, encode_table_cons. by rewrite <- !app_assoc.
Qed.

Lemma handle_compression_fail m p q level e m' :
  handle_compression p q level m = (inl e, m') →
  fs m' = fs m ∧ (∀ path, EvCreate path ∉ new_events m m').
Proof.
  unfold handle_compression. unfold bind at 1. rewrite read_all_spec.
  run.
  repeat (case_match; run); intros [= <- <-]; simplify_eq; cbn [fs trace];
    (split; [done|settle_trace; no_create]).
Qed.

Lemma safetensors_split (B : list byte) :
  8 ≤ vsize B → 8 + u64_of_bytes (take 8 B) ≤ vsize B →
  let h := u64_of_bytes (take 8 B) in
  let metadata := take (Z.to_nat h) (drop 8 B) in
  let tensors := drop (Z.to_nat (8 + h)) B in
  B = safetensors_layout metadata tensors ∧ vsize metadata = h.
Proof.
  intros H8 Hh h metadata tensors.
  assert (Hlen : length (take 8 B) = 8%nat).
  { rewrite length_take. unfold vsize in H8. lia. }
  pose proof (u64_of_bytes_fits _ Hlen) as Hfit. fold h in Hfit.
  assert (Hm : vsize metadata = h).
  { unfold metadata, vsize. rewrite length_take, length_drop.
    unfold vsize in Hh, H8. fold h in Hh. unfold fits_u64 in Hfit. lia. }
  split; [|done]. unfold safetensors_layout. rewrite Hm.
  unfold h, u64_bytes, u64_of_bytes.
  rewrite (split_le_combine' _ 8 Hlen).
  unfold metadata, tensors.
  replace (Z.to_nat (8 + h)) with (8 + Z.to_nat h)%nat
    by (unfold fits_u64 in Hfit; lia).
  rewrite <- drop_drop. by rewrite !take_drop.
Qed.

Lemma handle_compression_valid m p q level metadata tensors :
  files (fs m) !! p = Some (safetensors_layout metadata tensors) →
  fits_u64 (vsize metadata) →
  vsize (safetensors_layout metadata tensors) ≤ memory (fs m) →
  handle_compression p q level m =
    let t := trace m ++
             [EvAlloc (vsize (safetensors_layout metadata tensors));
              EvAlloc (vsize metadata); EvAlloc (vsize tensors);
              EvCompress level] in
    match compress_safetensor metadata tensors level with
    | None => (inl CompressionFailed,
               mk_machine (fs m) (t ++ [EvStderr CompressionFailed]))
    | Some r =>
        if can_create (fs m) q then
          (inr tt,
           mk_machine
             (set_file (fs m) q
                (kang_layout (compressed_header r) (chunk_info r)
                   (compressed_tensors r)))
             (t ++ [EvCreate q]))
        else (inl CannotCreateOutputFile,
              mk_machine (fs m) (t ++ [EvStderr CannotCreateOutputFile]))
    end.
Proof.
  intros Hfile Hfit Hmem.
  unfold handle_compression. unfold bind at 1. rewrite read_all_spec, Hfile.
  cbn zeta. rewrite (proj2 (Z.leb_le _ _) Hmem). cbn [negb].
  assert (Htake : take 8 (safetensors_layout metadata tensors)
                  = u64_bytes (vsize metadata)).
  { unfold safetensors_layout.
    by rewrite take_app_length' by (by rewrite length_u64_bytes). }
  assert (Hsz : vsize (safetensors_layout metadata tensors)
                = 8 + vsize metadata + vsize tensors).
  { unfold safetensors_layout. rewrite !vsize_app, vsize_u64_bytes. lia. }
  pose proof (vsize_nonneg metadata). pose proof (vsize_nonneg tensors).
  rewrite Htake, u64_of_u64_bytes, (u64_fits _ Hfit).
  assert (Hwrap : u64 (8 + vsize metadata) ≤ 8 + vsize metadata).
  { unfold u64. apply Z.mod_le; lia. }
  rewrite (proj2 (Z.ltb_ge _ _)) by lia.
  rewrite (proj2 (Z.ltb_ge _ _)) by lia.
  rewrite (proj2 (Z.ltb_ge _ _)) by lia.
  replace (vsize (safetensors_layout metadata tensors) - (8 + vsize metadata))
    with (vsize tensors) by lia.
  assert (Hmeta : take (Z.to_nat (vsize metadata))
                    (drop 8 (safetensors_layout metadata tensors)) = metadata).
  { unfold safetensors_layout.
    rewrite drop_app_length' by (by rewrite length_u64_bytes).
    unfold vsize. rewrite Nat2Z.id. by rewrite take_app_length. }
  assert (Htens : drop (Z.to_nat (8 + vsize metadata))
                    (safetensors_layout metadata tensors) = tensors).
  { unfold safetensors_layout. rewrite app_assoc.
    rewrite drop_app_length'; [done|].
    rewrite length_app, length_u64_bytes.
    unfold vsize, fits_u64 in *. lia. }
  rewrite Hmeta, Htens.
  rewrite bind_alloc_ok by (cbn [fs]; lia).
  rewrite bind_alloc_ok by (cbn [fs]; lia). run.
  destruct (compress_safetensor metadata tensors level) as [r|]; run;
    [|by rewrite <- !app_assoc].
  destruct (can_create (fs m) q); run; [|by rewrite <- !app_assoc].
  case_bool_decide as Hb; rewrite fold_write_chunk_info;
    cbn [app opath obuf ofs_write]; rewrite set_file_twice;
    rewrite <- !app_assoc; cbn [app]; rewrite !u64_bytes_wrap;
    unfold kang_layout; [rewrite Hb, app_nil_r|]; done.
Qed.


(** A run of [handle_compression] that reaches its end has read a file
    with the framing of a safetensors file. *)
Lemma handle_compression_ok m p q level u m' :
  handle_compression p q level m = (inr u, m') →
  ∃ metadata tensors r,
    files (fs m) !! p = Some (safetensors_layout metadata tensors) ∧
    fits_u64 (vsize metadata) ∧
    vsize (safetensors_layout metadata tensors) ≤ memory (fs m) ∧
    compress_safetensor metadata tensors level = Some r ∧
    can_create (fs m) q = true ∧
    fs m' = set_file (fs m) q
              (kang_layout (compressed_header r) (chunk_info r)
                 (compressed_tensors r)) ∧
    new_events m m' =
      [EvAlloc (vsize (safetensors_layout metadata tensors));
       EvAlloc (vsize metadata); EvAlloc (vsize tensors);
       EvCompress level; EvCreate q].
Proof.
  intros Hrun.
  assert (Hhead : ∃ content,
            files (fs m) !! p = Some content ∧ 8 ≤ vsize content ∧
            8 + u64_of_bytes (take 8 content) ≤ vsize content ∧
            vsize content ≤ memory (fs m)).
  { revert Hrun. unfold handle_compression. unfold bind at 1.
    rewrite read_all_spec.
    destruct (files (fs m) !! p) as [content|]; [|intros [=]].
    cbn zeta.
    destruct (vsize content <=? memory (fs m)) eqn:Hmem; [|intros [=]].
    cbn [negb].
    destruct (vsize content <? 8) eqn:H8; [intros [=]|].
    destruct (vsize content <? u64 _) eqn:Hw; [intros [=]|].
    destruct (vsize content <? 8 + _) eqn:Hh; [intros [=]|].
    intros _. exists content. apply Z.ltb_ge in H8, Hh.
    apply Z.leb_le in Hmem. done. }
  destruct Hhead as (content & Hfile & H8 & Hh & Hmem).
  destruct (safetensors_split content H8 Hh) as [HB Hm].
  set (metadata := take (Z.to_nat (u64_of_bytes (take 8 content)))
                     (drop 8 content)) in *.
  set (tensors := drop (Z.to_nat (8 + u64_of_bytes (take 8 content)))
                    content) in *.
  assert (Hfit : fits_u64 (vsize metadata)).
  { rewrite Hm. apply u64_of_bytes_fits, length_take_le.
    unfold vsize in H8. lia. }
  rewrite HB in Hfile, Hmem.
  rewrite (handle_compression_valid m p q level _ _ Hfile Hfit Hmem) in Hrun.
  cbn zeta in Hrun.
  destruct (compress_safetensor metadata tensors level) as [r|] eqn:Hc;
    [|done].
  destruct (can_create (fs m) q) eqn:Hq; [|done].
  injection Hrun as _ <-.
  exists metadata, tensors, r. split_and!; try done.
  by settle_trace.
Qed.

End Handlers.

(** ** The reference engine meets the contract *)

Module ReferenceFacts.
Import Reference.
Section CodecFacts.
Variable codec_compress : Z → list byte → list byte.
Variable codec_decompress : list byte → option (list byte).
Variable chunk_size : nat.

Abbreviation plan := (plan chunk_size).
Abbreviation decode_chunks := (decode_chunks codec_decompress).
Abbreviation compress := (compress codec_compress chunk_size).
Abbreviation decompress := (decompress codec_decompress).
Abbreviation engine := (engine codec_compress codec_decompress chunk_size).

Hypothesis codec_lossless :
  ∀ level x, codec_decompress (codec_compress level x) = Some x.
Hypothesis chunk_size_pos : (0 < chunk_size)%nat.

Lemma plan_covers payload : ∀ fuel offset remaining,
  (remaining ≤ fuel)%nat → (offset + remaining = length payload)%nat →
  concat (map (slice payload) (plan fuel offset remaining))
  = drop offset payload.
Proof.
  induction fuel as [|fuel IH]; intros offset remaining Hf Hlen.
  - cbn. rewrite drop_ge; [done|lia].
  - cbn [plan]. case_bool_decide as Hz.
    + cbn. rewrite drop_ge; [done|lia].
    + cbn [map concat]. rewrite IH by lia.
      unfold slice; cbn [fst snd].
      rewrite <- drop_drop. apply take_drop.
Qed.

Lemma decode_chunks_encoded level chunks : ∀ pre,
  decode_chunks (table_of chunks (map (codec_compress level) chunks))
    (vsize pre) (pre ++ concat (map (codec_compress level) chunks))
  = Some (concat chunks).
Proof.
  induction chunks as [|c chunks IH]; intros pre; [done|].
  cbn [map table_of zip_with concat decode_chunks].
  fold (table_of chunks (map (codec_compress level) chunks)).
  pose proof (vsize_nonneg (codec_compress level c)) as Hc.
  rewrite (proj2 (Z.leb_le _ _) Hc). cbn [andb].
  rewrite !vsize_app.
  pose proof (vsize_nonneg (concat (map (codec_compress level) chunks))).
  rewrite (proj2 (Z.leb_le _ _)) by lia.
  unfold vsize at 1 2. rewrite !Nat2Z.id.
  rewrite drop_app_length, take_app_length, codec_lossless, Z.eqb_refl.
  specialize (IH (pre ++ codec_compress level c)).
  rewrite vsize_app, <- app_assoc in IH. by rewrite IH.
Qed.

Lemma engine_is_lossless : engine_lossless engine.
Proof.
  intros metadata tensors level r. cbn. unfold compress, decompress.
  case_match; [|done]. intros [= <-]. cbn [compressed_header chunk_info compressed_tensors].
  rewrite codec_lossless.
  pose proof (decode_chunks_encoded level
    (map (slice tensors) (plan (length tensors) 0 (length tensors))) [])
    as Hd.
  cbn [app] in Hd. change (vsize (@nil byte)) with 0 in Hd. rewrite Hd.
  by rewrite plan_covers.
Qed.

Lemma result_fits_b_spec r : result_fits_b r = true → result_fits r.
Proof.
  unfold result_fits_b, result_fits, table_fits, fits_u64b, fits_u64.
  rewrite !andb_true_iff, forallb_forall, Forall_forall.
  intros ((Hh & Hk) & Ht).
  split_and!; try lia.
  intros info Hin%list_elem_of_In. specialize (Ht info Hin). lia.
Qed.

Lemma engine_has_sizes_fit : engine_sizes_fit engine.
Proof.
  intros metadata tensors level r. cbn. unfold compress.
  case_match eqn:Hfit; [|done]. intros [= <-]. by apply result_fits_b_spec.
Qed.

Lemma decode_chunks_short tbl : ∀ offset payload,
  table_fits tbl → 0 ≤ offset ≤ vsize payload →
  vsize payload < offset + declared_payload tbl →
  decode_chunks tbl offset payload = None.
Proof.
  induction tbl as [|[orig comp] tbl IH]; intros offset payload Hfit Ho Hlen.
  - cbn in Hlen. lia.
  - apply Forall_cons in Hfit as [[_ Hc] Hfit]. cbn [fst snd] in Hc.
    cbn [declared_payload foldr snd] in Hlen.
    fold (declared_payload tbl) in Hlen.
    cbn [decode_chunks]. unfold fits_u64 in Hc.
    destruct (offset + comp <=? vsize payload) eqn:Hin;
      [|by rewrite andb_false_r].
    apply Z.leb_le in Hin.
    rewrite (IH (offset + comp) payload Hfit) by lia.
    rewrite andb_true_r. by repeat case_match.
Qed.

Lemma engine_does_check_ranges : engine_checks_ranges engine.
Proof.
  intros hdr payload tbl Hfit Hlen. cbn. unfold decompress.
  pose proof (vsize_nonneg payload).
  rewrite (decode_chunks_short tbl 0 payload Hfit) by lia.
  by case_match.
Qed.
End CodecFacts.

Lemma stored_lossless : engine_lossless stored.
Proof. apply engine_is_lossless; [done|lia]. Qed.

Lemma stored_sizes_fit : engine_sizes_fit stored.
Proof. apply engine_has_sizes_fit; done || lia. Qed.

Lemma stored_checks_ranges : engine_checks_ranges stored.
Proof. apply engine_does_check_ranges; done || lia. Qed.

End ReferenceFacts.

Import ReferenceFacts.

Lemma lookup_set_file w q content :
  files (set_file w q content) !! q = Some content.
Proof. unfold set_file; cbn. apply lookup_insert_eq. Qed.

Lemma vsize_take_le {A} (n : nat) (l : list A) :
  vsize (take n l) ≤ Z.of_nat n.
Proof. unfold vsize. rewrite length_take. lia. Qed.

(** ** Running [main] *)

Lemma call_returned (c : M unit) m res m' :
  c m = (res, m') → returned res = true → call c m = (inr (), m').
Proof.
  intros Hc Hres. unfold call. rewrite Hc.
  destruct res as [[]|]; try done.
Qed.

Section Main.
Context {E : Engine} {P : StdPath}.


Lemma main_single_compress m input output res m' :
  status (fs m) input = Some Regular →
  handle_compression input output 10 m = (res, m') →
  returned res = true →
  main ["compress"; input; output] m = (inr 0, m').
Proof.
  intros Hst Hrun Hres. unfold main.
  change (vsize ["compress"; input; output]) with 3.
  change (["compress"; input; output] !!! 0%nat) with "compress".
  rewrite (bool_decide_eq_true_2 ("compress" = "compress")) by done.
  change (3 + 1 <? 3) with false. change (3 <? 3) with false.
  cbn [andb]. run.
  change (3 <? Z.of_nat 1 + 2) with false.
  change (["compress"; input; output] !!! 1%nat) with input.
  change (["compress"; input; output] !!! (1 + 1)%nat) with output.
  cbn beta iota. rewrite Hst.
  by rewrite (call_returned _ _ _ _ Hrun Hres).
Qed.

Lemma main_single_decompress m input output res m' :
  status (fs m) input = Some Regular →
  handle_decompression input output m = (res, m') →
  returned res = true →
  main ["decompress"; input; output] m = (inr 0, m').
Proof.
  intros Hst Hrun Hres. unfold main.
  change (vsize ["decompress"; input; output]) with 3.
  change (["decompress"; input; output] !!! 0%nat) with "decompress".
  rewrite (bool_decide_eq_false_2 ("decompress" = "compress")) by done.
  change (3 + 1 <? 3) with false.
  cbn [andb]. run.
  change (3 <? Z.of_nat 1 + 2) with false.
  change (["decompress"; input; output] !!! 1%nat) with input.
  change (["decompress"; input; output] !!! (1 + 1)%nat) with output.
  cbn beta iota. rewrite Hst.
  rewrite (bool_decide_eq_true_2 ("decompress" = "decompress")) by done.
  by rewrite (call_returned _ _ _ _ Hrun Hres).
Qed.

Lemma main_level_accepted m opt lvl v input output res m' :
  opt = "-l" ∨ opt = "--level" → stoi lvl = Some v →
  status (fs m) input = Some Regular →
  handle_compression input output v m = (res, m') →
  returned res = true →
  main ["compress"; opt; lvl; input; output] m = (inr 0, m').
Proof.
  intros Hopt Hlvl Hst Hrun Hres. unfold main.
  change (vsize ["compress"; opt; lvl; input; output]) with 5.
  change (["compress"; opt; lvl; input; output] !!! 0%nat) with "compress".
  change (["compress"; opt; lvl; input; output] !!! 1%nat) with opt.
  change (["compress"; opt; lvl; input; output] !!! 2%nat) with lvl.
  rewrite (bool_decide_eq_true_2 ("compress" = "compress")) by done.
  change (5 + 1 <? 3) with false. change (3 <? 5) with true.
  change (5 <? 5) with false. cbn [andb].
  assert (Ho : bool_decide (opt = "-l") || bool_decide (opt = "--level")
               = true).
  { destruct Hopt as [-> | ->]; done. }
  rewrite Ho, Hlvl. run.
  change (5 <? Z.of_nat 3 + 2) with false.
  change (["compress"; opt; lvl; input; output] !!! 3%nat) with input.
  change (["compress"; opt; lvl; input; output] !!! (3 + 1)%nat) with output.
  cbn beta iota. rewrite Hst.
  by rewrite (call_returned _ _ _ _ Hrun Hres).
Qed.


End Main.

(** ** The claims of the design document *)

(** Claim C1 (round trip).  For every valid RawAsset, that is a buffer made
    of the 8-byte length of the metadata, the metadata and the tensor
    bytes, and every level at which the engine compresses it, the
    container that [handle_compression] writes is taken back by
    [handle_decompression] to the original buffer, bit for bit.  The
    engine enters with its contract: it is lossless and the sizes it
    reports are 64-bit quantities.  The buffers of both runs (the input
    file, and the parts of the container) are within the memory that an
    allocation can obtain. *)
Theorem compress_decompress_round_trip (E : Engine) (m : machine)
    (p q r : string) (level : Z) (metadata tensors : list byte)
    (res : CompressionResult) :
  engine_lossless E → engine_sizes_fit E →
  files (fs m) !! p = Some (safetensors_layout metadata tensors) →
  vsize (safetensors_layout metadata tensors) < 2 ^ 64 →
  compress_safetensor metadata tensors level = Some res →
  can_create (fs m) q = true → can_create (fs m) r = true →
  vsize (safetensors_layout metadata tensors) ≤ memory (fs m) →
  room_for (fs m) (compressed_header res) (chunk_info res)
    (compressed_tensors res) →
  ∃ m1 m2,
    handle_compression p q level m = (inr (), m1) ∧
    handle_decompression q r m1 = (inr (), m2) ∧
    files (fs m2) !! r = Some (safetensors_layout metadata tensors).
Proof.
  intros Hloss Hfit Hfile Hsize Hres Hq Hr Hmem Hroom.
  assert (Hmeta : fits_u64 (vsize metadata)).
  { unfold safetensors_layout in Hsize.
    rewrite !vsize_app, vsize_u64_bytes in Hsize.
    pose proof (vsize_nonneg metadata). pose proof (vsize_nonneg tensors).
    unfold fits_u64. lia. }
  pose proof (handle_compression_valid m p q level _ _ Hfile Hmeta Hmem)
    as Hc.
  cbn zeta in Hc. rewrite Hres, Hq in Hc.
  destruct (Hfit _ _ _ _ Hres) as (Hh & Hk & Ht).
  eexists. eexists. split; [exact Hc|].
  match goal with |- handle_decompression q r ?m1 = _ ∧ _ =>
    pose proof (handle_decompression_accepts m1 q r _ _ _
                  (lookup_set_file _ _ _) Hh Hk Ht Hroom) as Hd
  end.
  cbn zeta in Hd. rewrite (Hloss _ _ _ _ Hres) in Hd.
  cbn [fs can_create set_file] in Hd. rewrite Hr in Hd.
  split; [exact Hd|]. cbn [fs]. apply lookup_set_file.
Qed.

Lemma compress_decompress_round_trip_witness :
  ∃ m1 m2,
    handle_compression (E := Reference.stored)
      "model.safetensors" "model.kang" 10 (boot sample_world) = (inr (), m1) ∧
    handle_decompression (E := Reference.stored)
      "model.kang" "restored.safetensors" m1 = (inr (), m2) ∧
    files (fs m2) !! ("restored.safetensors" : string) = Some sample_asset.
Proof.
  apply (compress_decompress_round_trip Reference.stored (boot sample_world)
           "model.safetensors" "model.kang" "restored.safetensors" 10
           sample_metadata sample_tensors
           (mk_result sample_metadata [(4, 4); (4, 4); (2, 2)]
              sample_tensors)).
  - apply stored_lossless.
  - apply stored_sizes_fit.
  - reflexivity.
  - reflexivity.
  - by vm_compute.
  - reflexivity.
  - reflexivity.
  - by vm_compute.
  - apply kang_layout_memory. by vm_compute.
Defined.

(** Claim C5 (corruption is detected).  For every valid container and
    every proper prefix of it, that is every truncation of its trailing
    bytes, [handle_decompression] on the prefix ends with a format error
    or with the failure of the engine; it creates no output file, so it
    never returns a result that differs from the original asset.  The
    engine enters with its contract: it refuses a payload shorter than the
    chunk table declares.  The parts of the container are within the
    memory that an allocation can obtain. *)
Theorem truncated_container_rejected (E : Engine) (m : machine)
    (p q : string) (hdr : list byte) (tbl : list (Z * Z))
    (payload : list byte) (n : nat) :
  engine_checks_ranges E →
  valid_container hdr tbl payload →
  room_for (fs m) hdr tbl payload →
  (n < length (kang_layout hdr tbl payload))%nat →
  files (fs m) !! p = Some (take n (kang_layout hdr tbl payload)) →
  ∃ e m',
    handle_decompression p q m = (inl e, m') ∧
    is_format_error e || is_codec_error e = true ∧
    fs m' = fs m ∧
    (∀ path, EvCreate path ∉ new_events m m').
Proof.
  intros Hchk (Hh & Hk & Ht & Hsum) (Hm8 & Hmh & Hmk & Hmp) Hn Hfile.
  assert (Hfail : ∀ e m',
            handle_decompression p q m = (inl e, m') →
            is_format_error e || is_codec_error e = true →
            ∃ e m', handle_decompression p q m = (inl e, m') ∧
                    is_format_error e || is_codec_error e = true ∧
                    fs m' = fs m ∧
                    (∀ path, EvCreate path ∉ new_events m m')).
  { intros e m' Hrun He. exists e, m'.
    destruct (handle_decompression_fail _ _ _ _ _ Hrun). by split_and!. }
  unfold kang_layout in Hfile, Hn.
  rewrite !length_app, !length_u64_bytes in Hn.
  change (length KANG_SIGNATURE) with 8%nat in Hn.
  assert (Htbl : length (encode_table tbl) = (16 * length tbl)%nat).
  { pose proof (vsize_encode_table tbl) as Hv. unfold vsize in Hv. lia. }
  (* inside the signature *)
  destruct (Nat.lt_ge_cases n 8) as [H1|H1].
  { eapply Hfail;
      [eapply handle_decompression_bad_signature; [exact Hfile| |exact Hm8]
      |done].
    intros Heq. apply (f_equal length) in Heq.
    rewrite !length_take, !length_app in Heq.
    change (length KANG_SIGNATURE) with 8%nat in Heq. lia. }
  rewrite take_app_ge in Hfile by (change (length KANG_SIGNATURE) with 8%nat; lia).
  change (length KANG_SIGNATURE) with 8%nat in Hfile.
  (* inside the header length *)
  destruct (Nat.lt_ge_cases (n - 8) 8) as [H2|H2].
  { eapply Hfail;
      [eapply handle_decompression_no_header_size; [exact Hfile| |exact Hm8]
      |done].
    eapply Z.le_lt_trans; [apply vsize_take_le|lia]. }
  rewrite take_app_ge in Hfile by (rewrite length_u64_bytes; lia).
  rewrite length_u64_bytes in Hfile.
  (* inside the compressed header *)
  destruct (Nat.lt_ge_cases (n - 8 - 8) (length hdr)) as [H3|H3].
  { eapply Hfail;
      [eapply handle_decompression_short_header;
         [exact Hfile|exact Hh| |exact Hm8|exact Hmh]|done].
    eapply Z.le_lt_trans; [apply vsize_take_le|unfold vsize; lia]. }
  rewrite take_app_ge in Hfile by lia.
  (* inside the chunk count *)
  destruct (Nat.lt_ge_cases (n - 8 - 8 - length hdr) 8) as [H4|H4].
  { eapply Hfail;
      [eapply handle_decompression_no_chunk_count;
         [exact Hfile|exact Hh| |exact Hm8|exact Hmh]|done].
    eapply Z.le_lt_trans; [apply vsize_take_le|lia]. }
  rewrite take_app_ge in Hfile by (rewrite length_u64_bytes; lia).
  rewrite length_u64_bytes in Hfile.
  (* inside the chunk table *)
  destruct (Nat.lt_ge_cases (n - 8 - 8 - length hdr - 8) (16 * length tbl))
    as [H5|H5].
  { eapply Hfail;
      [eapply handle_decompression_short_table;
         [exact Hfile|exact Hh|exact Hk| |exact Hm8|exact Hmh|exact Hmk]
      |done].
    eapply Z.le_lt_trans; [apply vsize_take_le|unfold vsize; lia]. }
  rewrite take_app_ge in Hfile by lia.
  (* inside the payload *)
  set (payload' := take (n - 8 - 8 - length hdr - 8 - length (encode_table tbl))
                     payload) in *.
  assert (Hlen' : vsize payload' < vsize payload).
  { unfold payload'.
    eapply Z.le_lt_trans; [apply vsize_take_le|unfold vsize; lia]. }
  assert (Hroom : room_for (fs m) hdr tbl payload').
  { unfold room_for. split_and!; [done..|lia]. }
  pose proof (handle_decompression_accepts m p q hdr tbl payload'
                Hfile Hh Hk Ht Hroom) as Hrun.
  cbn zeta in Hrun. rewrite (Hchk hdr payload' tbl Ht) in Hrun by lia.
  eapply Hfail; [exact Hrun|done].
Qed.

Lemma truncated_container_rejected_witness :
  ∃ e m',
    handle_decompression (E := Reference.stored) "cut.kang" "out.safetensors"
      (boot sample_world) = (inl e, m') ∧
    is_format_error e || is_codec_error e = true ∧
    fs m' = fs (boot sample_world) ∧
    (∀ path, EvCreate path ∉ new_events (boot sample_world) m').
Proof.
  apply (truncated_container_rejected Reference.stored (boot sample_world)
           "cut.kang" "out.safetensors" sample_metadata
           [(4, 4); (4, 4); (2, 2)] sample_tensors 70).
  - apply stored_checks_ranges.
  - unfold valid_container, fits_u64, table_fits.
    split; [by vm_compute|]. split; [by vm_compute|].
    split; [repeat constructor; by vm_compute|].
    by vm_compute.
  - apply kang_layout_memory. by vm_compute.
  - vm_compute. lia.
  - reflexivity.
Defined.

(** Claim C6 (bad signature).  For every input whose first 8 bytes are
    not the signature (an input shorter than 8 bytes included),
    [handle_decompression] reports the signature error, which is a format
    error, before the engine is called, and creates no output file. *)
Theorem bad_signature_rejected (E : Engine) (m : machine) (p q : string)
    (content : list byte) :
  files (fs m) !! p = Some content →
  take 8 content ≠ KANG_SIGNATURE →
  8 ≤ memory (fs m) →
  ∃ m',
    handle_decompression p q m = (inl InvalidSignature, m') ∧
    is_format_error InvalidSignature = true ∧
    (EvDecompress ∉ new_events m m') ∧
    fs m' = fs m ∧
    (∀ path, EvCreate path ∉ new_events m m').
Proof.
  intros Hfile Hsig Hmem.
  pose proof (handle_decompression_bad_signature m p q content Hfile Hsig
                Hmem) as Hrun.
  eexists. split; [exact Hrun|]. rewrite new_events_app.
  split; [done|]. split; [|split; [done|no_create]].
  intros Hin. repeat (apply elem_of_cons in Hin as [Hin|Hin]; [discriminate Hin|]).
  by apply elem_of_nil in Hin.
Qed.

Lemma bad_signature_rejected_witness :
  ∃ m',
    handle_decompression (E := Reference.stored) "bad.kang" "out.safetensors"
      (boot sample_world) = (inl InvalidSignature, m') ∧
    is_format_error InvalidSignature = true ∧
    (EvDecompress ∉ new_events (boot sample_world) m') ∧
    fs m' = fs (boot sample_world) ∧
    (∀ path, EvCreate path ∉ new_events (boot sample_world) m').
Proof.
  apply (bad_signature_rejected Reference.stored (boot sample_world)
           "bad.kang" "out.safetensors" (list_byte_of_string "NOTAKANGFILE")).
  - reflexivity.
  - vm_compute. discriminate.
  - by vm_compute.
Defined.

(** Claim C7 (no partial output).  A run of [handle_compression] or of
    [handle_decompression] that ends with an error (at any stage: opening
    or checking the input, the request of a buffer, the call of the
    engine, opening the output) leaves the file system as it was and has
    created no output file, the run with undefined behaviour apart; a
    run that reaches its end has created the output file as its last
    step, after the call of the engine has returned its result, and the
    file holds the complete result. *)
Theorem no_output_unless_engine_succeeded (E : Engine) (m : machine)
    (p q : string) (level : Z) :
  (∀ e m', handle_compression p q level m = (inl e, m') →
     e ≠ OutOfBounds →
     fs m' = fs m ∧ ∀ path, EvCreate path ∉ new_events m m') ∧
  (∀ e m', handle_decompression p q m = (inl e, m') →
     fs m' = fs m ∧ ∀ path, EvCreate path ∉ new_events m m') ∧
  (∀ u m', handle_compression p q level m = (inr u, m') →
     ∃ metadata tensors r,
       compress_safetensor metadata tensors level = Some r ∧
       new_events m m' =
         [EvAlloc (vsize (safetensors_layout metadata tensors));
          EvAlloc (vsize metadata); EvAlloc (vsize tensors);
          EvCompress level; EvCreate q] ∧
       fs m' = set_file (fs m) q
                 (kang_layout (compressed_header r) (chunk_info r)
                    (compressed_tensors r))) ∧
  (∀ u m', handle_decompression p q m = (inr u, m') →
     ∃ hdr tbl payload metadata tensors,
       decompress_kang hdr payload tbl = Some (metadata, tensors) ∧
       new_events m m' =
         [EvAlloc 8; EvAlloc (vsize hdr); EvAlloc (16 * vsize tbl);
          EvAlloc (vsize payload); EvDecompress; EvCreate q] ∧
       fs m' = set_file (fs m) q (safetensors_layout metadata tensors)).
Proof.
  split_and!.
  - intros e m' Hrun _. by apply (handle_compression_fail _ _ _ _ _ _ Hrun).
  - intros e m'. apply handle_decompression_fail.
  - intros u m' Hrun.
    destruct (handle_compression_ok _ _ _ _ _ _ Hrun)
      as (metadata & tensors & r & _ & _ & _ & Hc & _ & Hfs & Hev).
    by exists metadata, tensors, r.
  - intros u m' Hrun.
    destruct (handle_decompression_ok _ _ _ _ _ Hrun)
      as (hdr & tbl & payload & metadata & tensors
          & _ & _ & _ & _ & _ & Hd & _ & Hfs & Hev).
    by exists hdr, tbl, payload, metadata, tensors.
Qed.

Lemma no_output_unless_engine_succeeded_witness :
  fs (handle_decompression (E := Reference.stored) "oversized.kang"
        "out.safetensors" (boot sample_world)).2 = fs (boot sample_world) ∧
  ∀ path,
    EvCreate path ∉
      new_events (boot sample_world)
        (handle_decompression (E := Reference.stored) "oversized.kang"
           "out.safetensors" (boot sample_world)).2.
Proof.
  apply (proj1 (proj2 (no_output_unless_engine_succeeded Reference.stored
                         (boot sample_world) "oversized.kang"
                         "out.safetensors" 10)) DecompressionFailed).
  vm_compute. reflexivity.
Defined.

(** Claim C9 (outer length prefix).  For every run of
    [handle_decompression] that reaches its end, with M and T the
    metadata and the tensor bytes that the engine returned for the parts
    of the container read, the output file is the 8 bytes of the unsigned
    64-bit value len(M), followed by M, followed by T. *)
Theorem decompressed_file_layout (E : Engine) (m : machine) (p q : string)
    (u : unit) (m' : machine) :
  handle_decompression p q m = (inr u, m') →
  ∃ hdr tbl payload metadata tensors,
    files (fs m) !! p = Some (kang_layout hdr tbl payload) ∧
    decompress_kang hdr payload tbl = Some (metadata, tensors) ∧
    files (fs m') !! q =
      Some (u64_bytes (vsize metadata) ++ metadata ++ tensors) ∧
    length (u64_bytes (vsize metadata)) = 8%nat ∧
    u64_of_bytes (u64_bytes (vsize metadata)) = u64 (vsize metadata).
Proof.
  intros Hrun.
  destruct (handle_decompression_ok _ _ _ _ _ Hrun)
    as (hdr & tbl & payload & metadata & tensors
        & Hfile & _ & _ & _ & _ & Hd & _ & Hfs & _).
  exists hdr, tbl, payload, metadata, tensors.
  split; [exact Hfile|]. split; [exact Hd|]. rewrite Hfs.
  split; [apply lookup_set_file|].
  split; [apply length_u64_bytes|apply u64_of_u64_bytes].
Qed.

Lemma decompressed_file_layout_witness :
  ∃ hdr tbl payload metadata tensors,
    files (fs (boot sample_world)) !! ("model.kang" : string)
      = Some (kang_layout hdr tbl payload) ∧
    decompress_kang (Engine := Reference.stored) hdr payload tbl
      = Some (metadata, tensors) ∧
    files (fs (handle_decompression (E := Reference.stored) "model.kang"
                 "out.safetensors" (boot sample_world)).2)
      !! ("out.safetensors" : string) =
      Some (u64_bytes (vsize metadata) ++ metadata ++ tensors) ∧
    length (u64_bytes (vsize metadata)) = 8%nat ∧
    u64_of_bytes (u64_bytes (vsize metadata)) = u64 (vsize metadata).
Proof.
  apply (decompressed_file_layout Reference.stored (boot sample_world)
           "model.kang" "out.safetensors" tt).
  vm_compute. reflexivity.
Defined.

(** Claim C10 (the truncation check wraps).  [handle_compression]
    compares the length n of the buffer with 8 + h computed modulo 2^64,
    h being the declared header length.  For every n >= 8 and every
    h >= 2^64 - 8 the sum wraps to 8 + h - 2^64 < 8, the check
    [n < 8 + h] is false although h exceeds n - 8, and the input is not
    rejected with the header size message: the run goes on to build an
    iterator range that leaves the buffer. *)
Theorem header_length_check_wraps (E : Engine) (m : machine) (p q : string)
    (level : Z) (content : list byte) :
  files (fs m) !! p = Some content →
  8 ≤ vsize content < 2 ^ 64 →
  vsize content ≤ memory (fs m) →
  2 ^ 64 - 8 ≤ u64_of_bytes (take 8 content) →
  let n := vsize content in
  let h := u64_of_bytes (take 8 content) in
  u64 (8 + h) = 8 + h - 2 ^ 64 ∧
  (n <? u64 (8 + h)) = false ∧
  n - 8 < h ∧
  ∃ m', handle_compression p q level m = (inl OutOfBounds, m').
Proof.
  intros Hfile Hn Hmem Hh n h.
  assert (Hlen : length (take 8 content) = 8%nat).
  { rewrite length_take. unfold vsize in Hn. lia. }
  pose proof (u64_of_bytes_fits _ Hlen) as Hfit. fold h in Hfit, Hh.
  unfold fits_u64 in Hfit. fold n in Hn.
  assert (Hwrap : u64 (8 + h) = 8 + h - 2 ^ 64).
  { unfold u64. symmetry. apply (Z.mod_unique _ _ 1); lia. }
  split; [exact Hwrap|]. split; [apply Z.ltb_ge; lia|]. split; [lia|].
  unfold handle_compression. unfold bind at 1. rewrite read_all_spec, Hfile.
  cbn zeta. rewrite (proj2 (Z.leb_le _ _) Hmem). cbn [negb]. fold n h.
  rewrite (proj2 (Z.ltb_ge n 8)) by lia.
  rewrite (proj2 (Z.ltb_ge n (u64 (8 + h)))) by lia.
  rewrite (proj2 (Z.ltb_lt n (8 + h))) by lia.
  run. eauto.
Qed.

Lemma header_length_check_wraps_witness :
  let n := vsize (u64_bytes (2 ^ 64 - 3) ++ sample_metadata) in
  let h := u64_of_bytes (take 8 (u64_bytes (2 ^ 64 - 3) ++ sample_metadata)) in
  u64 (8 + h) = 8 + h - 2 ^ 64 ∧
  (n <? u64 (8 + h)) = false ∧
  n - 8 < h ∧
  ∃ m', handle_compression (E := Reference.stored) "wrap.safetensors"
          "out.kang" 10 (boot sample_world) = (inl OutOfBounds, m').
Proof.
  apply (header_length_check_wraps Reference.stored (boot sample_world)
           "wrap.safetensors" "out.kang" 10
           (u64_bytes (2 ^ 64 - 3) ++ sample_metadata)).
  - reflexivity.
  - by vm_compute.
  - by vm_compute.
  - by vm_compute.
Defined.

(** Claim C4 (container layout).  For every run of [handle_compression]
    that reaches its end, the output file is, in order: the 8 bytes
    "KANGCOMP"; the unsigned 64-bit length H of the compressed header; the
    H bytes of the compressed header; the unsigned 64-bit chunk count K;
    the K pairs of unsigned 64-bit (original size, compressed size), 16
    bytes each; and the compressed payload in full, whose length is stored
    nowhere.  And the runs that reach their end are these: for every
    well-framed input that fits in memory, on which the engine succeeds,
    and every output path that can be created, whatever the path held
    before, the run reaches its end and leaves this layout in the output
    file. *)
Theorem container_file_layout (E : Engine) (m : machine) (p q : string)
    (level : Z) :
  engine_sizes_fit E →
  (∀ u m',
     handle_compression p q level m = (inr u, m') →
     ∃ metadata tensors hdr tbl payload H K,
       files (fs m) !! p = Some (safetensors_layout metadata tensors) ∧
       compress_safetensor metadata tensors level
         = Some (mk_result hdr tbl payload) ∧
       files (fs m') !! q =
         Some (list_byte_of_string "KANGCOMP" ++ u64_bytes H ++ hdr ++
               u64_bytes K ++ encode_table tbl ++ payload) ∧
       length (list_byte_of_string "KANGCOMP") = 8%nat ∧
       H = vsize hdr ∧ u64_of_bytes (u64_bytes H) = H ∧
       K = vsize tbl ∧ u64_of_bytes (u64_bytes K) = K ∧
       vsize (encode_table tbl) = 16 * K) ∧
  (∀ metadata tensors hdr tbl payload,
     files (fs m) !! p = Some (safetensors_layout metadata tensors) →
     fits_u64 (vsize metadata) →
     vsize (safetensors_layout metadata tensors) ≤ memory (fs m) →
     compress_safetensor metadata tensors level
       = Some (mk_result hdr tbl payload) →
     can_create (fs m) q = true →
     ∃ m',
       handle_compression p q level m = (inr tt, m') ∧
       files (fs m') !! q =
         Some (list_byte_of_string "KANGCOMP" ++ u64_bytes (vsize hdr) ++
               hdr ++ u64_bytes (vsize tbl) ++ encode_table tbl ++ payload) ∧
       u64_of_bytes (u64_bytes (vsize hdr)) = vsize hdr ∧
       u64_of_bytes (u64_bytes (vsize tbl)) = vsize tbl ∧
       vsize (encode_table tbl) = 16 * vsize tbl ∧
       new_events m m' =
         [EvAlloc (vsize (safetensors_layout metadata tensors));
          EvAlloc (vsize metadata); EvAlloc (vsize tensors);
          EvCompress level; EvCreate q]).
Proof.
  intros Hfit. split.
  - intros u m' Hrun.
    destruct (handle_compression_ok _ _ _ _ _ _ Hrun)
      as (metadata & tensors & r & Hfile & _ & _ & Hc & _ & Hfs & _).
    destruct (Hfit _ _ _ _ Hc) as (Hh & Hk & _).
    destruct r as [hdr tbl payload]. cbn in Hh, Hk, Hfs.
    exists metadata, tensors, hdr, tbl, payload, (vsize hdr), (vsize tbl).
    split; [exact Hfile|]. split; [exact Hc|]. rewrite Hfs.
    split; [apply lookup_set_file|]. split; [done|].
    rewrite !u64_of_u64_bytes, !u64_fits by done.
    split_and!; try done. apply vsize_encode_table.
  - intros metadata tensors hdr tbl payload Hfile Hmeta Hmem Hc Hq.
    pose proof (handle_compression_valid m p q level _ _ Hfile Hmeta Hmem)
      as Hrun.
    cbn zeta in Hrun. rewrite Hc, Hq in Hrun. cbn in Hrun.
    destruct (Hfit _ _ _ _ Hc) as (Hh & Hk & _). cbn in Hh, Hk.
    eexists. split; [exact Hrun|]. cbn [fs].
    split; [apply lookup_set_file|].
    rewrite !u64_of_u64_bytes, !u64_fits by done.
    split_and!; try done; [apply vsize_encode_table|].
    by rewrite <- app_assoc, new_events_app.
Qed.

Lemma container_file_layout_witness :
  files (fs (boot sample_world)) !! ("fresh.kang" : string) = None ∧
  ∃ m',
    handle_compression (E := Reference.stored) "model.safetensors"
      "fresh.kang" 10 (boot sample_world) = (inr tt, m') ∧
    files (fs m') !! ("fresh.kang" : string) =
      Some (list_byte_of_string "KANGCOMP" ++
            u64_bytes (vsize sample_metadata) ++ sample_metadata ++
            u64_bytes (vsize [(4, 4); (4, 4); (2, 2)]) ++
            encode_table [(4, 4); (4, 4); (2, 2)] ++ sample_tensors) ∧
    u64_of_bytes (u64_bytes (vsize sample_metadata)) = vsize sample_metadata ∧
    u64_of_bytes (u64_bytes (vsize [(4, 4); (4, 4); (2, 2)])) =
      vsize [(4, 4); (4, 4); (2, 2)] ∧
    vsize (encode_table [(4, 4); (4, 4); (2, 2)]) =
      16 * vsize [(4, 4); (4, 4); (2, 2)] ∧
    new_events (boot sample_world) m' =
      [EvAlloc (vsize (safetensors_layout sample_metadata sample_tensors));
       EvAlloc (vsize sample_metadata); EvAlloc (vsize sample_tensors);
       EvCompress 10; EvCreate "fresh.kang"].
Proof.
  split; [reflexivity|].
  apply (proj2 (container_file_layout Reference.stored (boot sample_world)
                  "model.safetensors" "fresh.kang" 10 stored_sizes_fit)
           sample_metadata sample_tensors).
  - reflexivity.
  - by vm_compute.
  - by vm_compute.
  - by vm_compute.
  - reflexivity.
Defined.

(** Claim C2, as the code has it.  [handle_decompression] stops with a
    format error when the stream ends before the signature, the 64-bit
    header length, the H declared header bytes, the 64-bit chunk count, or
    the K declared table entries have been read in full.  The buffer for
    the declared H bytes, and the room for the K declared entries, are
    requested before the read that meets the end of the stream, and no
    declared size is compared with what is left of the stream: a declared
    size that cannot be allocated ends the program at the request, with no
    format error.  A stream that holds the signature, a header and a full
    table is accepted whatever sizes the table declares: what is left of
    the stream goes to the engine with the table, and an error after that
    point is not a format error. *)
Theorem reader_stops_at_end_of_stream (E : Engine) (m : machine)
    (p q : string) :
  8 ≤ memory (fs m) →
  (∀ content,
     files (fs m) !! p = Some content → vsize content < 8 →
     handle_decompression p q m =
       (inl InvalidSignature,
        mk_machine (fs m)
          (trace m ++ [EvAlloc 8; EvStderr InvalidSignature]))) ∧
  (∀ r,
     files (fs m) !! p = Some (KANG_SIGNATURE ++ r) → vsize r < 8 →
     handle_decompression p q m =
       (inl ErrorReadingHeaderSize,
        mk_machine (fs m)
          (trace m ++ [EvAlloc 8; EvStderr ErrorReadingHeaderSize]))) ∧
  (∀ H r,
     files (fs m) !! p = Some (KANG_SIGNATURE ++ u64_bytes H ++ r) →
     fits_u64 H → vsize r < H → H ≤ memory (fs m) →
     handle_decompression p q m =
       (inl ErrorReadingCompressedHeader,
        mk_machine (fs m)
          (trace m ++ [EvAlloc 8; EvAlloc H;
                       EvStderr ErrorReadingCompressedHeader]))) ∧
  (∀ H r,
     files (fs m) !! p = Some (KANG_SIGNATURE ++ u64_bytes H ++ r) →
     fits_u64 H → memory (fs m) < H →
     handle_decompression p q m =
       (inl Terminated,
        mk_machine (fs m) (trace m ++ [EvAlloc 8; EvAlloc H]))) ∧
  (∀ hdr r,
     files (fs m) !! p =
       Some (KANG_SIGNATURE ++ u64_bytes (vsize hdr) ++ hdr ++ r) →
     fits_u64 (vsize hdr) → vsize r < 8 → vsize hdr ≤ memory (fs m) →
     handle_decompression p q m =
       (inl ErrorReadingNumChunks,
        mk_machine (fs m)
          (trace m ++ [EvAlloc 8; EvAlloc (vsize hdr);
                       EvStderr ErrorReadingNumChunks]))) ∧
  (∀ hdr K r,
     files (fs m) !! p =
       Some (KANG_SIGNATURE ++ u64_bytes (vsize hdr) ++ hdr ++
             u64_bytes K ++ r) →
     fits_u64 (vsize hdr) → fits_u64 K → vsize r < 16 * K →
     vsize hdr ≤ memory (fs m) → 16 * K ≤ memory (fs m) →
     handle_decompression p q m =
       (inl ErrorReadingChunkInfo,
        mk_machine (fs m)
          (trace m ++ [EvAlloc 8; EvAlloc (vsize hdr); EvAlloc (16 * K);
                       EvStderr ErrorReadingChunkInfo]))) ∧
  (∀ hdr K r,
     files (fs m) !! p =
       Some (KANG_SIGNATURE ++ u64_bytes (vsize hdr) ++ hdr ++
             u64_bytes K ++ r) →
     fits_u64 (vsize hdr) → fits_u64 K →
     vsize hdr ≤ memory (fs m) → memory (fs m) < 16 * K →
     handle_decompression p q m =
       (inl Terminated,
        mk_machine (fs m)
          (trace m ++ [EvAlloc 8; EvAlloc (vsize hdr);
                       EvAlloc (16 * K)]))) ∧
  (∀ hdr tbl payload,
     files (fs m) !! p = Some (kang_layout hdr tbl payload) →
     fits_u64 (vsize hdr) → fits_u64 (vsize tbl) → table_fits tbl →
     room_for (fs m) hdr tbl payload →
     ∃ res m',
       handle_decompression p q m = (res, m') ∧
       take 5 (new_events m m') =
         [EvAlloc 8; EvAlloc (vsize hdr); EvAlloc (16 * vsize tbl);
          EvAlloc (vsize payload); EvDecompress] ∧
       (∀ e, res = inl e → is_format_error e = false) ∧
       (decompress_kang hdr payload tbl = None →
        res = inl DecompressionFailed)).
Proof.
  intros M8. split_and!.
  - intros content Hfile Hlen.
    apply (handle_decompression_bad_signature m p q content Hfile); [|done].
    intros Heq. apply (f_equal length) in Heq.
    rewrite length_take in Heq. change (length KANG_SIGNATURE) with 8%nat in Heq.
    unfold vsize in Hlen. lia.
  - intros r Hfile Hr.
    by apply (handle_decompression_no_header_size m p q r).
  - intros H r Hfile HH Hr Mh.
    by apply (handle_decompression_short_header m p q H r).
  - intros H r Hfile HH Mh.
    by apply (handle_decompression_header_too_large m p q H r).
  - intros hdr r Hfile HH Hr Mh.
    by apply (handle_decompression_no_chunk_count m p q hdr r).
  - intros hdr K r Hfile HH HK Hr Mh Mk.
    by apply (handle_decompression_short_table m p q hdr K r).
  - intros hdr K r Hfile HH HK Mh Mk.
    by apply (handle_decompression_table_too_large m p q hdr K r).
  - intros hdr tbl payload Hfile Hh Hk Ht Hroom.
    pose proof (handle_decompression_accepts m p q hdr tbl payload
                  Hfile Hh Hk Ht Hroom) as Hrun.
    cbn zeta in Hrun.
    destruct (decompress_kang hdr payload tbl) as [[metadata tensors]|];
      [destruct (can_create (fs m) q)|];
      eexists; eexists; (split; [exact Hrun|]);
      rewrite <- app_assoc, new_events_app;
      (split; [done|]); (split; [by intros e [= <-]|done]).
Qed.

Lemma reader_stops_at_end_of_stream_witness :
  handle_decompression (E := Reference.stored) "greedy.kang" "out.safetensors"
    (boot sample_world) =
  (inl ErrorReadingCompressedHeader,
   mk_machine sample_world
     [EvAlloc 8; EvAlloc 1000; EvStderr ErrorReadingCompressedHeader]).
Proof.
  refine (proj1 (proj2 (proj2 (reader_stops_at_end_of_stream Reference.stored
           (boot sample_world) "greedy.kang" "out.safetensors" _)))
           1000 [] _ _ _ _).
  - by vm_compute.
  - reflexivity.
  - by vm_compute.
  - by vm_compute.
  - by vm_compute.
Defined.

(** Claim C2, counterexample.  The stream of "oversized.kang" declares one
    chunk of 100 compressed bytes and has no byte left after the table:
    the reader accepts it and calls the engine, and the failure that
    follows is the engine's, not a format error.  The stream of
    "greedy.kang" declares a header of 1000 bytes and ends there: the
    1000 bytes are requested before the read fails.  The stream of
    "huge.kang" declares a header of 2^40 bytes and ends there: the
    request ends the program, and no format error is reported. *)
Lemma declared_sizes_are_trusted :
  files sample_world !! ("oversized.kang" : string)
    = Some (kang_layout [] [(5, 100)] []) ∧
  vsize (@nil byte) < declared_payload [(5, 100)] ∧
  take 5 (trace (handle_decompression (E := Reference.stored)
                   "oversized.kang" "out.safetensors"
                   (boot sample_world)).2) =
    [EvAlloc 8; EvAlloc 0; EvAlloc 16; EvAlloc 0; EvDecompress] ∧
  (handle_decompression (E := Reference.stored) "oversized.kang"
     "out.safetensors" (boot sample_world)).1 = inl DecompressionFailed ∧
  is_format_error DecompressionFailed = false ∧
  files sample_world !! ("greedy.kang" : string)
    = Some (KANG_SIGNATURE ++ u64_bytes 1000 ++ []) ∧
  vsize (@nil byte) < 1000 ∧
  handle_decompression (E := Reference.stored) "greedy.kang"
    "out.safetensors" (boot sample_world) =
  (inl ErrorReadingCompressedHeader,
   mk_machine sample_world
     [EvAlloc 8; EvAlloc 1000; EvStderr ErrorReadingCompressedHeader]) ∧
  files sample_world !! ("huge.kang" : string)
    = Some (KANG_SIGNATURE ++ u64_bytes (2 ^ 40) ++ []) ∧
  handle_decompression (E := Reference.stored) "huge.kang"
    "out.safetensors" (boot sample_world) =
  (inl Terminated, mk_machine sample_world [EvAlloc 8; EvAlloc (2 ^ 40)]) ∧
  is_format_error Terminated = false.
Proof. split_and!; vm_compute; (reflexivity || discriminate). Qed.


(** Claim C3, as the code has it.  For an input path that is a regular
    file, [main] calls the handler for a single file and returns the exit
    status 0, whether the handler reached its end or returned early after
    an error: a handler is a [void] function and an error inside it goes
    to [std::cerr] only.  (Nothing is said of a handler that does not
    return: one that a failed allocation ends, or one whose behaviour is
    undefined.) *)
Theorem single_file_exit_status (E : Engine) (P : StdPath) (m : machine)
    (input output : string) :
  status (fs m) input = Some Regular →
  (∀ res m',
     handle_decompression input output m = (res, m') →
     returned res = true →
     main ["decompress"; input; output] m = (inr 0, m')) ∧
  (∀ res m',
     handle_compression input output 10 m = (res, m') →
     returned res = true →
     main ["compress"; input; output] m = (inr 0, m')) ∧
  (∀ opt lvl v res m',
     opt = "-l" ∨ opt = "--level" → stoi lvl = Some v →
     handle_compression input output v m = (res, m') →
     returned res = true →
     main ["compress"; opt; lvl; input; output] m = (inr 0, m')).
Proof.
  intros Hst. split; [|split].
  - intros res m'. by apply main_single_decompress.
  - intros res m'. by apply main_single_compress.
  - intros opt lvl v res m' Hopt Hlvl. by apply main_level_accepted.
Qed.

Lemma single_file_exit_status_witness :
  main (E := Reference.stored) (P := posix_paths)
    ["decompress"; "cut.kang"; "out.safetensors"] (boot sample_world) =
  (inr 0,
   mk_machine sample_world
     [EvAlloc 8; EvAlloc 2; EvAlloc 48; EvStderr ErrorReadingChunkInfo]).
Proof.
  apply (proj1 (single_file_exit_status Reference.stored posix_paths
                  (boot sample_world) "cut.kang" "out.safetensors"
                  ltac:(reflexivity))
           (inl ErrorReadingChunkInfo)).
  - vm_compute. reflexivity.
  - reflexivity.
Defined.

(** Claim C3, counterexample.  "bad.kang" is a regular file without the
    signature: decompressing it reports the invalid signature, and the
    exit status is 0. *)
Lemma failed_decompression_exits_zero :
  files sample_world !! ("bad.kang" : string)
    = Some (list_byte_of_string "NOTAKANGFILE") ∧
  status sample_world "bad.kang" = Some Regular ∧
  run_main ["decompress"; "bad.kang"; "out.safetensors"] =
    (inr 0, mk_machine sample_world [EvAlloc 8; EvStderr InvalidSignature]).
Proof. split_and!; vm_compute; reflexivity. Qed.




(** The second scenario of the design document: a directory with three
    source files gives three containers with matching stem names. *)
Example batch_compresses_each_source :
  (run_main ["compress"; "models"; "out"]).1 = inr 0 ∧
  created_files (trace (run_main ["compress"; "models"; "out"]).2) =
    ["out/a.kang"; "out/b.kang"; "out/c.kang"].
Proof. split; vm_compute; reflexivity. Qed.


(** ** Further properties of the driver *)

(** *** Helper facts *)

Lemma encode_table_wrap tbl :
  encode_table (map (λ info, (u64 info.1, u64 info.2)) tbl) = encode_table tbl.
Proof.
  induction tbl as [|info tbl IH]; [done|].
  cbn [map]. rewrite !encode_table_cons, IH. cbn [fst snd].
  by rewrite !u64_bytes_wrap.
Qed.

Lemma table_fits_wrap tbl :
  table_fits (map (λ info, (u64 info.1, u64 info.2)) tbl).
Proof.
  unfold table_fits. induction tbl as [|info tbl IH]; cbn [map].
  - constructor.
  - constructor; [split; apply u64_range|exact IH].
Qed.

Lemma read_u64_not_good s : good s = false → (read_u64 s).1.1 = false.
Proof.
  intros Hg. unfold read_u64, ifs_read. rewrite Hg.
  unfold good. cbn. by destruct (eofbit s).
Qed.

Lemma read_u64_stays_failed s :
  good s = false → good (read_u64 s).2 = false.
Proof.
  intros Hg. unfold read_u64, ifs_read. rewrite Hg.
  unfold good. cbn. by destruct (eofbit s).
Qed.


(** [main] on a command and two paths, down to the status of the input. *)
Ltac three_arguments :=
  unfold main;
  match goal with
  | |- context [vsize [?c; ?i; ?o]] =>
      change (vsize [c; i; o]) with 3;
      change ([c; i; o] !!! 0%nat) with c;
      change (3 + 1 <? 3) with false; change (3 <? 3) with false;
      rewrite andb_false_r; cbn beta iota zeta;
      unfold bind at 1, ret at 1;
      change (3 <? Z.of_nat 1 + 2) with false;
      change ([c; i; o] !!! 1%nat) with i;
      change ([c; i; o] !!! (1 + 1)%nat) with o;
      cbn beta iota; unfold bind at 1, get_world at 1
  end.

Section Log.
Context {E : Engine}.

(** A handler only adds to the log, and the one file it may create is its
    output. *)
Lemma handle_compression_log m p q level res m' :
  handle_compression p q level m = (res, m') →
  ∃ evs, trace m' = trace m ++ evs ∧ created_files evs `sublist_of` [q].
Proof.
  unfold handle_compression. unfold bind at 1. rewrite read_all_spec.
  run.
  repeat (case_match; run); intros [= <- <-]; simplify_eq; cbn [fs trace];
    rewrite <- ?app_assoc; cbn [app];
    (eexists; split; [reflexivity|]); cbn;
    (done || apply sublist_nil_l).
Qed.

Lemma handle_decompression_log m p q res m' :
  handle_decompression p q m = (res, m') →
  ∃ evs, trace m' = trace m ++ evs ∧ created_files evs `sublist_of` [q].
Proof.
  unfold handle_decompression. run.
  repeat (case_match; run); intros [= <- <-]; simplify_eq; cbn [fs trace];
    rewrite <- ?app_assoc; cbn [app];
    (eexists; split; [reflexivity|]); cbn;
    (done || apply sublist_nil_l).
Qed.

End Log.

Section Batch.
Context {P : StdPath}.
Variable handler : string → string → M unit.
Variables ext new_ext output_path : string.

Lemma batch_cons_selected entry es count m :
  selected ext entry = true →
  batch handler ext new_ext output_path (entry :: es) count m =
    match handler entry.1 (batch_output new_ext output_path entry.1) m with
    | (inl Terminated, m') => (inl Terminated, m')
    | (inl OutOfBounds, m') => (inl OutOfBounds, m')
    | (_, m') => batch handler ext new_ext output_path es (count + 1) m'
    end.
Proof.
  destruct entry as [entry_path is_regular]. unfold selected. cbn [fst snd].
  intros Hsel. cbn [batch]. rewrite Hsel. unfold bind, call, batch_output.
  destruct (handler _ _ m) as [[[]|[]] m']; reflexivity.
Qed.

Lemma batch_cons_skipped entry es count m :
  selected ext entry = false →
  batch handler ext new_ext output_path (entry :: es) count m =
    batch handler ext new_ext output_path es count m.
Proof.
  destruct entry as [entry_path is_regular]. unfold selected. cbn [fst snd].
  intros Hsel. cbn [batch]. by rewrite Hsel.
Qed.

Lemma batch_ends es : ∀ count m,
  let r := batch handler ext new_ext output_path es count m in
  r.1 = inr (count + vsize (List.filter (selected ext) es)) ∨
  r.1 = inl Terminated ∨ r.1 = inl OutOfBounds.
Proof.
  cbn zeta.
  induction es as [|entry es IH]; intros count m.
  - left. cbn. f_equal. unfold vsize. cbn. lia.
  - cbn [List.filter]. destruct (selected ext entry) eqn:Hsel.
    + rewrite (batch_cons_selected _ _ _ _ Hsel).
      assert (Hn : count + vsize (entry :: List.filter (selected ext) es)
                   = count + 1 + vsize (List.filter (selected ext) es)).
      { unfold vsize. cbn [length]. lia. }
      rewrite Hn.
      destruct (handler _ _ m) as [[[]|[]] m']; cbn [fst];
        first [apply IH | by right; left | by right; right].
    + rewrite (batch_cons_skipped _ _ _ _ Hsel). apply IH.
Qed.

Hypothesis handler_log : ∀ i o m res m',
  handler i o m = (res, m') →
  ∃ evs, trace m' = trace m ++ evs ∧ created_files evs `sublist_of` [o].


End Batch.

Section Directory.
Context {E : Engine} {P : StdPath}.





End Directory.

(** *** [read_all] and the input checks of the handlers *)

(** Property X1 ([read_all]).  [read_all] reports a file that cannot be
    opened with [false] and requests no buffer; for a file that opens it
    requests one buffer of the size of the file and, when the request is
    granted, returns [true] with the whole content of the file; when the
    request is not granted the program ends there. *)
Theorem read_all_whole_file (m : machine) (path : string) :
  (files (fs m) !! path = None → read_all path m = (inr (false, []), m)) ∧
  (∀ content,
     files (fs m) !! path = Some content →
     vsize content ≤ memory (fs m) →
     read_all path m =
       (inr (true, content),
        mk_machine (fs m) (trace m ++ [EvAlloc (vsize content)]))) ∧
  (∀ content,
     files (fs m) !! path = Some content →
     memory (fs m) < vsize content →
     read_all path m =
       (inl Terminated,
        mk_machine (fs m) (trace m ++ [EvAlloc (vsize content)]))).
Proof.
  split_and!.
  - intros Hfile. by rewrite read_all_spec, Hfile.
  - intros content Hfile Hmem. rewrite read_all_spec, Hfile. cbn zeta.
    by rewrite (proj2 (Z.leb_le _ _) Hmem).
  - intros content Hfile Hmem. rewrite read_all_spec, Hfile. cbn zeta.
    by rewrite (proj2 (Z.leb_gt _ _) Hmem).
Qed.

Lemma read_all_whole_file_witness :
  read_all "model.safetensors" (boot sample_world) =
    (inr (true, sample_asset), mk_machine sample_world [EvAlloc 20]).
Proof.
  apply (proj1 (proj2 (read_all_whole_file (boot sample_world)
                         "model.safetensors")) sample_asset).
  - reflexivity.
  - by vm_compute.
Defined.

(** Property X2 (missing input).  When the input file cannot be opened,
    [handle_compression] prints its cannot-open-file message and
    [handle_decompression] its cannot-open-input-file message, and neither
    does anything else: no buffer is requested, the engine is not called,
    the file system is as it was. *)
Theorem missing_input_reported (E : Engine) (m : machine) (p q : string)
    (level : Z) :
  files (fs m) !! p = None →
  handle_compression p q level m =
    (inl CannotOpenFile,
     mk_machine (fs m) (trace m ++ [EvStderr CannotOpenFile])) ∧
  handle_decompression p q m =
    (inl CannotOpenInputFile,
     mk_machine (fs m) (trace m ++ [EvStderr CannotOpenInputFile])).
Proof.
  intros Hfile. split; [|by apply handle_decompression_no_file].
  unfold handle_compression. unfold bind at 1.
  by rewrite read_all_spec, Hfile.
Qed.

Lemma missing_input_reported_witness :
  handle_compression (E := Reference.stored) "absent.safetensors" "out.kang"
    10 (boot sample_world) =
    (inl CannotOpenFile, mk_machine sample_world [EvStderr CannotOpenFile]) ∧
  handle_decompression (E := Reference.stored) "absent.safetensors"
    "out.kang" (boot sample_world) =
    (inl CannotOpenInputFile,
     mk_machine sample_world [EvStderr CannotOpenInputFile]).
Proof.
  apply (missing_input_reported Reference.stored (boot sample_world)
           "absent.safetensors" "out.kang" 10).
  reflexivity.
Defined.

(** Property X3 (input checks of [handle_compression]).  An input of fewer
    than 8 bytes is refused with the too-small message.  An input of at
    least 8 bytes whose first 8 bytes declare a header length h with
    n - 8 < h < 2^64 - 8, n being the length of the input, is refused with
    the header-size-mismatch message: the sum 8 + h does not wrap and the
    comparison of line 61 is exact.  In both cases the engine is not
    called and no output file is created. *)
Theorem malformed_asset_rejected (E : Engine) (m : machine) (p q : string)
    (level : Z) (content : list byte) :
  files (fs m) !! p = Some content →
  vsize content ≤ memory (fs m) →
  (vsize content < 8 →
   handle_compression p q level m =
     (inl FileTooSmall,
      mk_machine (fs m)
        (trace m ++ [EvAlloc (vsize content); EvStderr FileTooSmall]))) ∧
  (8 ≤ vsize content →
   vsize content - 8 < u64_of_bytes (take 8 content) < 2 ^ 64 - 8 →
   handle_compression p q level m =
     (inl HeaderSizeMismatch,
      mk_machine (fs m)
        (trace m ++ [EvAlloc (vsize content); EvStderr HeaderSizeMismatch]))).
Proof.
  intros Hfile Hmem. split.
  - intros Hn. unfold handle_compression. unfold bind at 1.
    rewrite read_all_spec, Hfile. cbn zeta.
    rewrite (proj2 (Z.leb_le _ _) Hmem). cbn [negb].
    rewrite (proj2 (Z.ltb_lt _ _) Hn). run. by rewrite <- app_assoc.
  - intros Hn Hh. unfold handle_compression. unfold bind at 1.
    rewrite read_all_spec, Hfile. cbn zeta.
    rewrite (proj2 (Z.leb_le _ _) Hmem). cbn [negb].
    rewrite (proj2 (Z.ltb_ge _ _) Hn).
    rewrite (u64_fits (8 + _)) by (unfold fits_u64; lia).
    rewrite (proj2 (Z.ltb_lt (vsize content) _)) by lia.
    run. by rewrite <- app_assoc.
Qed.

Lemma malformed_asset_rejected_witness :
  handle_compression (E := Reference.stored) "bad.kang" "out.kang" 10
    (boot sample_world) =
    (inl HeaderSizeMismatch,
     mk_machine sample_world [EvAlloc 12; EvStderr HeaderSizeMismatch]).
Proof.
  apply (proj2 (malformed_asset_rejected Reference.stored (boot sample_world)
                  "bad.kang" "out.kang" 10
                  (list_byte_of_string "NOTAKANGFILE")
                  ltac:(reflexivity) ltac:(by vm_compute))).
  - by vm_compute.
  - by vm_compute.
Defined.

(** *** What the handlers write *)

(** Property X4 (only the output path is opened for writing).  Whatever
    its outcome, a run of [handle_compression] (the run with undefined
    behaviour apart) or of [handle_decompression] creates at most one
    file, and the path it opens for writing is its output path as given:
    the file system after the run is the one before it, or the one before
    it with new content at the output path.  No other path is written
    through.  (Which file a path names is not part of the model: an
    output path that names the input file has the input overwritten.) *)
Theorem handlers_write_only_output (E : Engine) (m : machine) (p q : string)
    (level : Z) :
  (∀ res m', handle_compression p q level m = (res, m') →
     res ≠ inl OutOfBounds →
     created_files (new_events m m') `sublist_of` [q] ∧
     (fs m' = fs m ∨ ∃ content, fs m' = set_file (fs m) q content)) ∧
  (∀ res m', handle_decompression p q m = (res, m') →
     created_files (new_events m m') `sublist_of` [q] ∧
     (fs m' = fs m ∨ ∃ content, fs m' = set_file (fs m) q content)).
Proof.
  split.
  - intros res m' Hrun _. split.
    + destruct (handle_compression_log _ _ _ _ _ _ Hrun) as (evs & Ht & Hc).
      unfold new_events. by rewrite Ht, drop_app_length.
    + destruct res as [e|u].
      * left. apply (handle_compression_fail _ _ _ _ _ _ Hrun).
      * right.
        destruct (handle_compression_ok _ _ _ _ _ _ Hrun)
          as (? & ? & ? & _ & _ & _ & _ & _ & -> & _).
        eauto.
  - intros res m' Hrun. split.
    + destruct (handle_decompression_log _ _ _ _ _ Hrun) as (evs & Ht & Hc).
      unfold new_events. by rewrite Ht, drop_app_length.
    + destruct res as [e|u].
      * left. apply (handle_decompression_fail _ _ _ _ _ Hrun).
      * right.
        destruct (handle_decompression_ok _ _ _ _ _ Hrun)
          as (? & ? & ? & ? & ? & _ & _ & _ & _ & _ & _ & _ & -> & _).
        eauto.
Qed.

Lemma handlers_write_only_output_witness :
  let m' := (handle_compression (E := Reference.stored) "model.safetensors"
               "fresh.kang" 10 (boot sample_world)).2 in
  created_files (new_events (boot sample_world) m')
    `sublist_of` ["fresh.kang"] ∧
  (fs m' = fs (boot sample_world) ∨
   ∃ content, fs m' = set_file (fs (boot sample_world)) "fresh.kang" content).
Proof.
  refine (proj1 (handlers_write_only_output Reference.stored
                   (boot sample_world) "model.safetensors" "fresh.kang" 10)
            (inr tt) _ _ _).
  - vm_compute. reflexivity.
  - discriminate.
Defined.

(** Property X5 (the output path is tried after the engine).  When the
    output file cannot be created, a handler whose input is well framed
    and whose engine call succeeds ends with its cannot-create-output
    message: the input has been read and the engine has run before the
    output path is tried, and the file system is as it was. *)
Theorem output_checked_after_engine (E : Engine) (m : machine)
    (p q : string) (level : Z) :
  can_create (fs m) q = false →
  (∀ metadata tensors r,
     files (fs m) !! p = Some (safetensors_layout metadata tensors) →
     fits_u64 (vsize metadata) →
     vsize (safetensors_layout metadata tensors) ≤ memory (fs m) →
     compress_safetensor metadata tensors level = Some r →
     handle_compression p q level m =
       (inl CannotCreateOutputFile,
        mk_machine (fs m)
          (trace m ++
           [EvAlloc (vsize (safetensors_layout metadata tensors));
            EvAlloc (vsize metadata); EvAlloc (vsize tensors);
            EvCompress level; EvStderr CannotCreateOutputFile]))) ∧
  (∀ hdr tbl payload metadata tensors,
     files (fs m) !! p = Some (kang_layout hdr tbl payload) →
     fits_u64 (vsize hdr) → fits_u64 (vsize tbl) → table_fits tbl →
     room_for (fs m) hdr tbl payload →
     decompress_kang hdr payload tbl = Some (metadata, tensors) →
     handle_decompression p q m =
       (inl CannotCreateOutput,
        mk_machine (fs m)
          (trace m ++
           [EvAlloc 8; EvAlloc (vsize hdr); EvAlloc (16 * vsize tbl);
            EvAlloc (vsize payload); EvDecompress;
            EvStderr CannotCreateOutput]))).
Proof.
  intros Hq. split.
  - intros metadata tensors r Hfile Hfit Hmem Hc.
    rewrite (handle_compression_valid m p q level _ _ Hfile Hfit Hmem).
    cbn zeta. rewrite Hc, Hq. by rewrite <- app_assoc.
  - intros hdr tbl payload metadata tensors Hfile Hh Hk Ht Hroom Hd.
    rewrite (handle_decompression_accepts m p q _ _ _ Hfile Hh Hk Ht Hroom).
    cbn zeta. rewrite Hd, Hq. by rewrite <- app_assoc.
Qed.

Lemma output_checked_after_engine_witness :
  handle_compression (E := Reference.stored) "model.safetensors" "out.kang"
    10 (boot readonly_world) =
    (inl CannotCreateOutputFile,
     mk_machine readonly_world
       [EvAlloc 20; EvAlloc 2; EvAlloc 10; EvCompress 10;
        EvStderr CannotCreateOutputFile]).
Proof.
  apply (proj1 (output_checked_after_engine Reference.stored
                  (boot readonly_world) "model.safetensors" "out.kang" 10
                  ltac:(reflexivity))
           sample_metadata sample_tensors
           (mk_result sample_metadata [(4, 4); (4, 4); (2, 2)]
              sample_tensors)).
  - reflexivity.
  - by vm_compute.
  - by vm_compute.
  - by vm_compute.
Defined.

(** Property X16 (well-framed inputs are accepted).  When the output file
    can be created, [handle_compression] accepts every input made of the
    8-byte length of the metadata, the metadata and the tensor bytes (both
    may be empty) for which the engine succeeds, and writes the container
    of the result of the engine; [handle_decompression] accepts every
    stream with the layout of a container for which the engine succeeds,
    whatever sizes its chunk table declares, and writes the framed result
    of the engine.  The buffers are within the memory of the machine. *)
Theorem well_framed_input_accepted (E : Engine) (m : machine)
    (p q : string) (level : Z) :
  can_create (fs m) q = true →
  (∀ metadata tensors r,
     files (fs m) !! p = Some (safetensors_layout metadata tensors) →
     fits_u64 (vsize metadata) →
     vsize (safetensors_layout metadata tensors) ≤ memory (fs m) →
     compress_safetensor metadata tensors level = Some r →
     handle_compression p q level m =
       (inr tt,
        mk_machine
          (set_file (fs m) q
             (kang_layout (compressed_header r) (chunk_info r)
                (compressed_tensors r)))
          (trace m ++
           [EvAlloc (vsize (safetensors_layout metadata tensors));
            EvAlloc (vsize metadata); EvAlloc (vsize tensors);
            EvCompress level; EvCreate q]))) ∧
  (∀ hdr tbl payload metadata tensors,
     files (fs m) !! p = Some (kang_layout hdr tbl payload) →
     fits_u64 (vsize hdr) → fits_u64 (vsize tbl) → table_fits tbl →
     room_for (fs m) hdr tbl payload →
     decompress_kang hdr payload tbl = Some (metadata, tensors) →
     handle_decompression p q m =
       (inr tt,
        mk_machine
          (set_file (fs m) q (safetensors_layout metadata tensors))
          (trace m ++
           [EvAlloc 8; EvAlloc (vsize hdr); EvAlloc (16 * vsize tbl);
            EvAlloc (vsize payload); EvDecompress; EvCreate q]))).
Proof.
  intros Hq. split.
  - intros metadata tensors r Hfile Hfit Hmem Hc.
    rewrite (handle_compression_valid m p q level _ _ Hfile Hfit Hmem).
    cbn zeta. rewrite Hc, Hq. by rewrite <- app_assoc.
  - intros hdr tbl payload metadata tensors Hfile Hh Hk Ht Hroom Hd.
    rewrite (handle_decompression_accepts m p q _ _ _ Hfile Hh Hk Ht Hroom).
    cbn zeta. rewrite Hd, Hq. by rewrite <- app_assoc.
Qed.

Lemma well_framed_input_accepted_witness :
  handle_decompression (E := Reference.stored) "model.kang"
    "out.safetensors" (boot sample_world) =
    (inr tt,
     mk_machine (set_file sample_world "out.safetensors" sample_asset)
       [EvAlloc 8; EvAlloc 2; EvAlloc 48; EvAlloc 10; EvDecompress;
        EvCreate "out.safetensors"]).
Proof.
  apply (proj2 (well_framed_input_accepted Reference.stored
                  (boot sample_world) "model.kang" "out.safetensors" 10
                  ltac:(reflexivity))
           sample_metadata [(4, 4); (4, 4); (2, 2)] sample_tensors
           sample_metadata sample_tensors).
  - reflexivity.
  - by vm_compute.
  - by vm_compute.
  - repeat constructor; by vm_compute.
  - apply kang_layout_memory. by vm_compute.
  - by vm_compute.
Defined.

(** *** Fixed-width integers on the streams *)

(** Property X6 ([read_u64]).  On a good stream, [read_u64] takes the 8
    bytes that were written for a value back to that value, modulo 2^64,
    and leaves the stream good behind them.  On a stream with fewer than 8
    bytes left it fails, and so does every [read_u64] after it, however
    many follow: the second operand of
    [!read_u64(orig) || !read_u64(comp)] cannot succeed where the first
    has failed. *)
Theorem read_u64_round_trip (in_file : ifstream) (rest : list byte) :
  positioned in_file rest →
  (∀ v rest', rest = u64_bytes v ++ rest' →
     ∃ in_file', read_u64 in_file = (true, u64 v, in_file') ∧
                 positioned in_file' rest') ∧
  (vsize rest < 8 →
     (read_u64 in_file).1.1 = false ∧
     (read_u64 (read_u64 in_file).2).1.1 = false ∧
     ∀ n : nat,
       (read_u64
          (Nat.iter n (λ s, (read_u64 s).2) (read_u64 in_file).2)).1.1
       = false).
Proof.
  intros Hpos. split.
  - intros v rest' ->. rewrite <- u64_bytes_wrap in Hpos.
    apply (read_u64_positioned _ _ _ (u64_range v) Hpos).
  - intros Hshort.
    pose proof (read_u64_short _ _ Hpos Hshort) as Hf. split; [exact Hf|].
    assert (Hg : good (read_u64 in_file).2 = false).
    { revert Hf. unfold read_u64.
      destruct (ifs_read in_file 8) as [bs s']. by cbn. }
    split; [by apply read_u64_not_good|].
    intros n. apply read_u64_not_good.
    induction n as [|n IH]; [exact Hg|].
    cbn [Nat.iter]. by apply read_u64_stays_failed.
Qed.

Lemma read_u64_round_trip_witness :
  ∃ in_file',
    read_u64 (ifs_open (u64_bytes 1000 ++ sample_metadata)) =
      (true, u64 1000, in_file') ∧
    positioned in_file' sample_metadata.
Proof.
  apply (proj1 (read_u64_round_trip
                  (ifs_open (u64_bytes 1000 ++ sample_metadata))
                  (u64_bytes 1000 ++ sample_metadata)
                  (positioned_open _)) 1000 sample_metadata).
  reflexivity.
Defined.

(** Property X7 (chunk table loops).  The reading loop of
    [handle_decompression], run for as many entries as the writing loop of
    [handle_compression] was given, takes what that loop wrote back to the
    table, every size modulo 2^64, and leaves the stream good at the first
    byte after the table. *)
Theorem chunk_table_round_trip (tbl : list (Z * Z)) (out_file : ofstream)
    (in_file : ifstream) (rest : list byte) :
  positioned in_file
    (drop (length (obuf out_file))
       (obuf (fold_left write_chunk_info tbl out_file)) ++ rest) →
  ∃ in_file',
    read_chunk_info (length tbl) in_file [] =
      (Some (map (λ info, (u64 info.1, u64 info.2)) tbl), in_file') ∧
    positioned in_file' rest.
Proof.
  intros Hpos. rewrite fold_write_chunk_info in Hpos. cbn [obuf] in Hpos.
  rewrite drop_app_length in Hpos.
  rewrite <- encode_table_wrap in Hpos.
  destruct (read_chunk_info_positioned _ in_file [] rest
              (table_fits_wrap tbl) Hpos) as (s' & Hr & Hp).
  rewrite length_map in Hr. exists s'. by split.
Qed.

Lemma chunk_table_round_trip_witness :
  ∃ in_file',
    read_chunk_info 2
      (ifs_open (u64_bytes 4 ++ u64_bytes 3 ++ u64_bytes (2 ^ 64 + 1) ++
                 u64_bytes 1 ++ sample_tensors)) [] =
      (Some [(4, 3); (1, 1)], in_file') ∧
    positioned in_file' sample_tensors.
Proof.
  apply (chunk_table_round_trip [(4, 3); (2 ^ 64 + 1, 1)]
           (mk_ofstream "out.kang" [])
           (ifs_open (u64_bytes 4 ++ u64_bytes 3 ++ u64_bytes (2 ^ 64 + 1) ++
                      u64_bytes 1 ++ sample_tensors)) sample_tensors).
  split; [reflexivity|]. split; [by vm_compute|]. vm_compute. reflexivity.
Defined.

(** *** The arguments of [main] *)

(** Property X8 (too few arguments).  With fewer than three arguments
    after the program name (a command, an input path and an output path)
    [main] prints the usage text and returns 1; no handler is called. *)
Theorem main_needs_input_and_output (E : Engine) (P : StdPath)
    (args : list string) (m : machine) :
  (length args < 3)%nat →
  main args m = (inr 1, mk_machine (fs m) (trace m ++ [EvUsage])).
Proof.
  intros Hlen. destruct args as [|a [|b [|c args]]]; [..|cbn in Hlen; lia].
  - reflexivity.
  - reflexivity.
  - unfold main.
    change (vsize [a; b]) with 2. change (2 + 1 <? 3) with false.
    change (3 <? 2) with false. rewrite andb_false_r.
    cbn beta iota zeta. run.
    reflexivity.
Qed.

Lemma main_needs_input_and_output_witness :
  run_main ["decompress"; "model.kang"] =
    (inr 1, mk_machine sample_world [EvUsage]).
Proof.
  apply (main_needs_input_and_output Reference.stored posix_paths
           ["decompress"; "model.kang"] (boot sample_world)).
  cbn. lia.
Defined.

(** Property X9 (the level option needs both paths).  [compress] followed
    by [-l] or [--level], a level and one path only prints the usage text
    and returns 1, whatever the level argument is: it is not parsed. *)
Theorem level_option_needs_both_paths (E : Engine) (P : StdPath)
    (opt lvl path : string) (m : machine) :
  opt = "-l" ∨ opt = "--level" →
  main ["compress"; opt; lvl; path] m =
    (inr 1, mk_machine (fs m) (trace m ++ [EvUsage])).
Proof.
  intros Hopt. unfold main.
  change (vsize ["compress"; opt; lvl; path]) with 4.
  change (["compress"; opt; lvl; path] !!! 0%nat) with "compress".
  change (["compress"; opt; lvl; path] !!! 1%nat) with opt.
  rewrite (bool_decide_eq_true_2 ("compress" = "compress")) by done.
  change (4 + 1 <? 3) with false. change (3 <? 4) with true.
  change (4 <? 5) with true. cbn [andb].
  assert (Ho : bool_decide (opt = "-l") || bool_decide (opt = "--level")
               = true).
  { destruct Hopt as [-> | ->]; done. }
  rewrite Ho. run. reflexivity.
Qed.

Lemma level_option_needs_both_paths_witness :
  run_main ["compress"; "-l"; "15"; "model.safetensors"] =
    (inr 1, mk_machine sample_world [EvUsage]).
Proof.
  apply (level_option_needs_both_paths Reference.stored posix_paths
           "-l" "15" "model.safetensors" (boot sample_world)).
  left. reflexivity.
Defined.

(** Property X10 (trailing arguments).  Arguments after the output path
    are ignored: [main] behaves as without them, both in the form
    [command input output] (where, for [compress], the input is not the
    level option) and in the form [compress -l level input output]. *)
Theorem trailing_arguments_ignored (E : Engine) (P : StdPath)
    (input output : string) (rest : list string) (m : machine) :
  (∀ command,
     ¬ (command = "compress" ∧ (input = "-l" ∨ input = "--level")) →
     main (command :: input :: output :: rest) m =
     main [command; input; output] m) ∧
  (∀ opt lvl,
     opt = "-l" ∨ opt = "--level" →
     main ("compress" :: opt :: lvl :: input :: output :: rest) m =
     main ["compress"; opt; lvl; input; output] m).
Proof.
  pose proof (vsize_nonneg rest) as Hr. split.
  - intros command Hopt. unfold main.
    change ((command :: input :: output :: rest) !!! 0%nat) with command.
    change ((command :: input :: output :: rest) !!! 1%nat) with input.
    change ([command; input; output] !!! 0%nat) with command.
    change ([command; input; output] !!! 1%nat) with input.
    change (vsize [command; input; output]) with 3.
    change (3 + 1 <? 3) with false. change (3 <? 3) with false.
    rewrite andb_false_r.
    assert (Hn : vsize (command :: input :: output :: rest)
                 = 3 + vsize rest).
    { unfold vsize. cbn [length]. lia. }
    rewrite Hn. rewrite (proj2 (Z.ltb_ge (3 + vsize rest + 1) 3)) by lia.
    assert (Hp : (if bool_decide (command = "compress")
                     && (3 <? 3 + vsize rest)
                  then
                    if bool_decide (input = "-l")
                       || bool_decide (input = "--level")
                    then
                      if 3 + vsize rest <? 5
                      then let* _ := print_usage in ret None
                      else
                        match stoi ((command :: input :: output :: rest)
                                      !!! 2%nat) with
                        | None =>
                            let* _ := emit (EvStderr InvalidCompressionLevel) in
                            let* _ := print_usage in
                            ret None
                        | Some compression_level =>
                            ret (Some (compression_level, 3%nat))
                        end
                    else ret (Some (10, 1%nat))
                  else ret (Some (10, 1%nat)))
                 = (ret (Some (10, 1%nat)) : M (option (Z * nat)))).
    { destruct (bool_decide (command = "compress")) eqn:Hc; [|done].
      apply bool_decide_eq_true in Hc.
      destruct (3 <? 3 + vsize rest); [|done]. cbn [andb].
      rewrite (bool_decide_eq_false_2 (input = "-l")) by tauto.
      rewrite (bool_decide_eq_false_2 (input = "--level")) by tauto.
      done. }
    cbn zeta. rewrite Hp. run.
    change (3 <? Z.of_nat 1 + 2) with false.
    rewrite (proj2 (Z.ltb_ge (3 + vsize rest) (Z.of_nat 1 + 2))) by lia.
    reflexivity.
  - intros opt lvl Hopt. unfold main.
    set (args := "compress" :: opt :: lvl :: input :: output :: rest).
    change (args !!! 0%nat) with "compress".
    change (args !!! 1%nat) with opt.
    change (args !!! 2%nat) with lvl.
    change (["compress"; opt; lvl; input; output] !!! 0%nat) with "compress".
    change (["compress"; opt; lvl; input; output] !!! 1%nat) with opt.
    change (["compress"; opt; lvl; input; output] !!! 2%nat) with lvl.
    change (vsize ["compress"; opt; lvl; input; output]) with 5.
    assert (Hn : vsize args = 5 + vsize rest).
    { unfold vsize, args. cbn [length]. lia. }
    rewrite Hn.
    rewrite (bool_decide_eq_true_2 ("compress" = "compress")) by done.
    change (5 + 1 <? 3) with false. change (3 <? 5) with true.
    change (5 <? 5) with false.
    rewrite (proj2 (Z.ltb_ge (5 + vsize rest + 1) 3)) by lia.
    rewrite (proj2 (Z.ltb_lt 3 (5 + vsize rest))) by lia.
    rewrite (proj2 (Z.ltb_ge (5 + vsize rest) 5)) by lia.
    cbn [andb].
    assert (Ho : bool_decide (opt = "-l") || bool_decide (opt = "--level")
                 = true).
    { destruct Hopt as [-> | ->]; done. }
    rewrite Ho.
    destruct (stoi lvl) as [v|]; [|reflexivity].
    run.
    change (5 <? Z.of_nat 3 + 2) with false.
    rewrite (proj2 (Z.ltb_ge (5 + vsize rest) (Z.of_nat 3 + 2))) by lia.
    reflexivity.
Qed.

Lemma trailing_arguments_ignored_witness :
  run_main ["decompress"; "-l"; "out.safetensors"; "more"; "words"] =
  run_main ["decompress"; "-l"; "out.safetensors"].
Proof.
  apply (proj1 (trailing_arguments_ignored Reference.stored posix_paths
                  "-l" "out.safetensors" ["more"; "words"]
                  (boot sample_world)) "decompress").
  intros [Hc _]. discriminate Hc.
Defined.

(** Property X11 (commands that run no handler).  With a command and two
    paths, [main] returns 1 without calling a handler when the status of
    the input path cannot be obtained (the filesystem-error message),
    when the input path is not found or is neither a regular file nor a
    directory (the invalid-input-path message), and when the input is a
    regular file and the command is neither [compress] nor [decompress]
    (the usage text). *)
Theorem main_rejects_without_handler (E : Engine) (P : StdPath)
    (command input output : string) (m : machine) :
  (status (fs m) input = None →
   main [command; input; output] m =
     (inr 1, mk_machine (fs m) (trace m ++ [EvStderr FilesystemError]))) ∧
  (status (fs m) input = Some NotFound ∨ status (fs m) input = Some Other →
   main [command; input; output] m =
     (inr 1, mk_machine (fs m) (trace m ++ [EvStderr InvalidInputPath]))) ∧
  (status (fs m) input = Some Regular →
   command ≠ "compress" → command ≠ "decompress" →
   main [command; input; output] m =
     (inr 1, mk_machine (fs m) (trace m ++ [EvUsage]))).
Proof.
  split_and!.
  - intros Hst. three_arguments. by rewrite Hst.
  - intros [Hst|Hst]; three_arguments; by rewrite Hst.
  - intros Hst Hc Hd. three_arguments. rewrite Hst.
    by rewrite !bool_decide_eq_false_2.
Qed.

Lemma main_rejects_without_handler_witness :
  run_main ["compress"; "absent.safetensors"; "out.kang"] =
    (inr 1, mk_machine sample_world [EvStderr InvalidInputPath]).
Proof.
  apply (proj1 (proj2 (main_rejects_without_handler Reference.stored
                         posix_paths "compress" "absent.safetensors"
                         "out.kang" (boot sample_world)))).
  left. reflexivity.
Defined.

(** Property X12 (default level).  Without the level option, [compress]
    on a regular file calls [handle_compression] with the level 10: for a
    well-framed input that fits in memory the engine is called with the
    metadata, the tensor bytes and the level 10, and what [main] leaves in
    the file system is what the engine returns for them: the container of
    its result at the output path when it succeeds and the path can be
    created, the file system as it was otherwise. *)
Theorem default_level_is_ten (E : Engine) (P : StdPath) (m : machine)
    (input output : string) (metadata tensors : list byte) :
  status (fs m) input = Some Regular →
  files (fs m) !! input = Some (safetensors_layout metadata tensors) →
  fits_u64 (vsize metadata) →
  vsize (safetensors_layout metadata tensors) ≤ memory (fs m) →
  take 4 (new_events m (main ["compress"; input; output] m).2) =
    [EvAlloc (vsize (safetensors_layout metadata tensors));
     EvAlloc (vsize metadata); EvAlloc (vsize tensors); EvCompress 10] ∧
  (main ["compress"; input; output] m).1 = inr 0 ∧
  fs (main ["compress"; input; output] m).2 =
    match compress_safetensor metadata tensors 10 with
    | Some r =>
        if can_create (fs m) output then
          set_file (fs m) output
            (kang_layout (compressed_header r) (chunk_info r)
               (compressed_tensors r))
        else fs m
    | None => fs m
    end.
Proof.
  intros Hst Hfile Hfit Hmem.
  pose proof (handle_compression_valid m input output 10 _ _ Hfile Hfit Hmem)
    as Hrun.
  cbn zeta in Hrun.
  destruct (compress_safetensor metadata tensors 10);
    [destruct (can_create (fs m) output)|];
    rewrite (main_single_compress m input output _ _ Hst Hrun) by done;
    cbn [fst snd fs]; (split; [|done]);
    by rewrite <- app_assoc, new_events_app.
Qed.

Lemma default_level_is_ten_witness :
  take 4 (new_events (boot sample_world)
            (run_main ["compress"; "model.safetensors"; "out.kang"]).2) =
    [EvAlloc 20; EvAlloc 2; EvAlloc 10; EvCompress 10] ∧
  (run_main ["compress"; "model.safetensors"; "out.kang"]).1 = inr 0 ∧
  fs (run_main ["compress"; "model.safetensors"; "out.kang"]).2 =
    set_file sample_world "out.kang" sample_container.
Proof.
  apply (default_level_is_ten Reference.stored posix_paths
           (boot sample_world) "model.safetensors" "out.kang"
           sample_metadata sample_tensors).
  - reflexivity.
  - reflexivity.
  - by vm_compute.
  - by vm_compute.
Defined.

(** *** Batches *)

(** Property X13 (the count of a batch).  A batch loop that runs to its
    end has counted every directory entry that is a regular file with the
    extension of the loop, whether the handler succeeded on it or returned
    after an error, and no other entry: an error message of a handler
    neither stops the loop nor lowers the count. *)
Theorem batch_counts_every_attempt (P : StdPath)
    (handler : string → string → M unit)
    (ext new_ext output_path : string) (es : list (string * bool))
    (count : Z) (m : machine) (res : error + Z) (m' : machine) :
  batch handler ext new_ext output_path es count m = (res, m') →
  res ≠ inl Terminated → res ≠ inl OutOfBounds →
  res = inr (count + vsize (List.filter (selected ext) es)).
Proof.
  intros Hrun Ht Ho.
  pose proof (batch_ends handler ext new_ext output_path es count m) as Hr.
  cbn zeta in Hr. rewrite Hrun in Hr. cbn [fst] in Hr.
  by destruct Hr as [Hr|[Hr|Hr]].
Qed.

Lemma batch_counts_every_attempt_witness :
  (batch (P := posix_paths)
     (λ i o, handle_compression (E := Reference.stored) i o 10)
     ".safetensors" ".kang" "out"
     [("models/a.safetensors", true); ("absent.safetensors", true);
      ("models/notes.txt", true); ("models/b.safetensors", false)]
     0 (boot sample_world)).1 = inr 2.
Proof.
  set (r := batch _ _ _ _ _ _ _).
  apply (batch_counts_every_attempt posix_paths
           (λ i o, handle_compression (E := Reference.stored) i o 10)
           ".safetensors" ".kang" "out"
           [("models/a.safetensors", true); ("absent.safetensors", true);
            ("models/notes.txt", true); ("models/b.safetensors", false)]
           0 (boot sample_world) r.1 r.2).
  - apply surjective_pairing.
  - vm_compute. discriminate.
  - vm_compute. discriminate.
Defined.



(** The run of the witness: two containers are created, then the
    exception is reported and the exit status is 1. *)
Example batch_cut_short :
  main (E := Reference.stored) (P := posix_paths)
    ["compress"; "broken"; "out"] (boot faulty_world) =
  (inr 1,
   mk_machine
     (set_file
        (set_file faulty_world "out/a.kang" sample_container)
        "out/b.kang" sample_container)
     [EvAlloc 20; EvAlloc 2; EvAlloc 10; EvCompress 10;
      EvCreate "out/a.kang";
      EvAlloc 20; EvAlloc 2; EvAlloc 10; EvCompress 10;
      EvCreate "out/b.kang";
      EvStderr FilesystemError]).
Proof. vm_compute. reflexivity. Qed.


